(** * Tello session orchestrator: a shallow embedding of the React component

    The repository holds two variants of the [App] component that drives a
    Tello quadcopter: the status-machine variant (five [ConnectionStatus]
    values, one [cleanup] shared by every teardown path) and the earlier
    boolean-flag variant of [App.jsx] ([isConnected] / [isStreaming]).

    Both are embedded here as programs in a small monad that threads the
    component state, the chronological list of calls made to the outside
    world (sockets, timers, FFmpegKit, NetInfo, permissions) and a
    JavaScript exception.  What the outside world answers to each call is
    an explicit argument ([Outcomes]), so that every handler is a total,
    executable function.

    Each handler is run to completion: React state writes are plain
    assignments (the last write wins, as with batched [setState]), and a
    handler reads the state left by the previous one. *)

From Stdlib Require Import String Ascii List Bool Arith NArith PArith Lia.
Import ListNotations.
Open Scope string_scope.

Set Implicit Arguments.

(** ** Constants of the source *)

Definition TELLO_IP : string := "192.168.10.1".
Definition TELLO_COMMAND_PORT : N := 8889.
Definition TELLO_STATE_PORT : N := 8890.
Definition TELLO_VIDEO_PORT : N := 11111.
Definition LOCAL_COMMAND_PORT_BIND : N := 9000.
Definition LOCAL_VIDEO_INPUT_PORT : N := TELLO_VIDEO_PORT.
Definition LOCAL_VIDEO_OUTPUT_HTTP_PORT : N := 11112.

(** ** The outside world *)

(** A socket object returned by [dgram.createSocket]; the number is the
    identity of the object (two calls return two objects). *)
Definition Socket := nat.

(** FFmpegKit numbers its sessions from 1, so a stored identifier is never
    a falsy JavaScript value: [if (ffmpegSessionId.current)] tests exactly
    whether one is stored. *)
Definition SessionId := positive.
Bind Scope positive_scope with SessionId.

(** Calls made to the outside world, in the order they are made. *)
Inductive Effect : Type :=
| CreateSocket (s : Socket)
| SocketOn (s : Socket) (event : string)
| SocketBind (s : Socket) (port : option N)
| SocketSend (s : Socket) (msg : string) (offset len : nat) (port : N) (host : string)
| SocketClose (s : Socket)
| SetTimeout (ms : N)
| FFmpegExecute (command : string)
| FFmpegCancel (sid : SessionId)
| PermissionRequest
| NetInfoFetch
| AlertShown (title message : string).

(** A JavaScript completion: a value, or a thrown error (kept as its
    [message]). *)
Inductive Completion (A : Type) : Type :=
| Normal (a : A)
| Thrown (message : string).
Arguments Thrown {A} message.

Inductive PlatformOS := android | ios | otherOS.

Inductive PermissionResult := GRANTED | DENIED | NEVER_ASK_AGAIN.

(** The state object resolved by [NetInfo.fetch()]. *)
Module NetInfo.
Record Details := { ssid : option string }.
Record State := {
  isConnected : option bool;        (* [null] while unknown *)
  type : string;
  details : option Details
}.
End NetInfo.

(** Modelled from the spec: FFmpegKit's [ReturnCode] is not part of the
    sources; a session ends with exactly one of three terminal outcomes,
    [Success], [Cancelled] or [Failed(logText)]. *)
Inductive TerminalOutcome :=
| Success
| Cancelled
| Failed (logs : string).

Definition isSuccess (rc : TerminalOutcome) : bool :=
  match rc with Success => true | _ => false end.
Definition isCancel (rc : TerminalOutcome) : bool :=
  match rc with Cancelled => true | _ => false end.

(** What the outside world answers during one handler.  [None] in a
    callback result is a call-back without [err]; [Some m] is an [err]
    whose message is [m]. *)
Record Outcomes := {
  platformOS : PlatformOS;
  permissionRequest : Completion PermissionResult;
  netInfoFetch : Completion NetInfo.State;
  createSocketThrows : option string;
  bindResult : option string;
  sendResult : string -> option string;
  executeAsyncResult : Completion SessionId;
  cancelThrows : option string;
  closeThrows : option string
}.

(** ** The monad of handlers *)

Section AsyncMonad.
Variable W : Type.

Definition Async (A : Type) : Type := W -> Completion A * W.

Definition ret {A} (a : A) : Async A := fun w => (Normal a, w).

Definition bind {A B} (m : Async A) (k : A -> Async B) : Async B :=
  fun w =>
    match m w with
    | (Normal a, w') => k a w'
    | (Thrown e, w') => (Thrown e, w')
    end.

Definition throw {A} (e : string) : Async A := fun w => (Thrown e, w).

(** [try { m } catch (error) { h error.message }] *)
Definition try_catch {A} (m : Async A) (h : string -> Async A) : Async A :=
  fun w =>
    match m w with
    | (Normal a, w') => (Normal a, w')
    | (Thrown e, w') => h e w'
    end.

Definition gets {A} (f : W -> A) : Async A := fun w => (Normal (f w), w).
Definition modify (f : W -> W) : Async unit := fun w => (Normal tt, f w).

(** The state a handler leaves behind, whatever its completion. *)
Definition exec {A} (m : Async A) (w : W) : W := snd (m w).
End AsyncMonad.

Arguments ret {W A} a.
Arguments throw {W A} e.
Arguments gets {W A} f.
Arguments modify {W} f.

Declare Scope async_scope.
Delimit Scope async_scope with async.
Notation "x <- m ;; k" := (bind m (fun x => k))
  (at level 61, m at next level, right associativity) : async_scope.
Notation "m ;; k" := (bind m (fun _ => k))
  (at level 61, right associativity) : async_scope.
Open Scope async_scope.

(** [s.length] of a JavaScript string: the number of UTF-16 code units.
    A string here is the UTF-8 text of the source, so every code point
    counts once, and twice when it lies beyond the basic plane (a lead
    byte of a four-byte sequence); continuation bytes do not count. *)
Definition utf16_units (c : ascii) : nat :=
  let n := nat_of_ascii c in
  if Nat.ltb n 128 then 1
  else if Nat.ltb n 192 then 0
  else if Nat.ltb n 240 then 1
  else 2.

Fixpoint js_length (s : string) : nat :=
  match s with
  | EmptyString => 0
  | String c s' => utf16_units c + js_length s'
  end.

(** JavaScript truthiness of a possibly missing string. *)
Definition truthy (v : option string) : bool :=
  match v with
  | Some s => negb (String.eqb s "")
  | None => false
  end.

(** [a || b] on possibly missing strings. *)
Definition js_or (a b : option string) : option string :=
  if truthy a then a else b.

Definition startsWith (s p : string) : bool := String.prefix p s.

Definition dquote : string := String (ascii_of_nat 34) EmptyString.

(** How one call changes the list of sockets that are open. *)
Definition track (acc : list Socket) (e : Effect) : list Socket :=
  match e with
  | CreateSocket s => acc ++ [s]
  | SocketClose s => remove Nat.eq_dec s acc
  | _ => acc
  end.

(** Sockets that were created and not yet closed, after a list of calls. *)
Definition open_sockets (acc : list Socket) (es : list Effect) : list Socket :=
  fold_left track es acc.

(** At every moment of the run at most one socket is open. *)
Definition at_most_one_open (es : list Effect) : Prop :=
  forall n, length (open_sockets [] (firstn n es)) <= 1.

(** ** The status-machine variant of the component *)

Module StatusApp.

Inductive ConnectionStatus :=
| DISCONNECTED
| CONNECTING
| CONNECTED
| STREAMING
| ERROR.

Definition status_eqb (a b : ConnectionStatus) : bool :=
  match a, b with
  | DISCONNECTED, DISCONNECTED | CONNECTING, CONNECTING
  | CONNECTED, CONNECTED | STREAMING, STREAMING | ERROR, ERROR => true
  | _, _ => false
  end.

(** [useState] values and [useRef] cells of the component. *)
Record App := mkApp {
  status : ConnectionStatus;
  error : string;
  commandSocket : option Socket;
  ffmpegSessionId : option SessionId
}.

Record World := mkWorld {
  app : App;
  effects : list Effect;
  nextSocket : Socket
}.

Definition initial : World :=
  mkWorld (mkApp DISCONNECTED "" None None) [] 0.

(** The argument of the player's [onError]. *)
Record ErrorDetail := {
  localizedFailureReason : option string;
  localizedDescription : option string
}.
Record PlaybackError := { err_error : option ErrorDetail }.

Definition M := Async World.

Definition setStatus (v : ConnectionStatus) : M unit :=
  modify (fun w => mkWorld (mkApp v (error (app w)) (commandSocket (app w))
                                  (ffmpegSessionId (app w)))
                           (effects w) (nextSocket w)).
Definition setError (v : string) : M unit :=
  modify (fun w => mkWorld (mkApp (status (app w)) v (commandSocket (app w))
                                  (ffmpegSessionId (app w)))
                           (effects w) (nextSocket w)).
Definition setCommandSocket (v : option Socket) : M unit :=
  modify (fun w => mkWorld (mkApp (status (app w)) (error (app w)) v
                                  (ffmpegSessionId (app w)))
                           (effects w) (nextSocket w)).
Definition setFfmpegSessionId (v : option SessionId) : M unit :=
  modify (fun w => mkWorld (mkApp (status (app w)) (error (app w))
                                  (commandSocket (app w)) v)
                           (effects w) (nextSocket w)).
Definition emit (e : Effect) : M unit :=
  modify (fun w => mkWorld (app w) (effects w ++ [e]) (nextSocket w)).

(** A call that throws when the outside world says so. *)
Definition call (e : Effect) (failure : option string) : M unit :=
  emit e ;;
  match failure with
  | Some m => throw m
  | None => ret tt
  end.

(** [dgram.createSocket(...)]: a fresh object, unless the call throws. *)
Definition createSocket (o : Outcomes) : M Socket :=
  match createSocketThrows o with
  | Some m => throw m
  | None =>
      s <- gets nextSocket ;;
      modify (fun w => mkWorld (app w) (effects w ++ [CreateSocket s])
                               (S (nextSocket w))) ;;
      ret s
  end.

Section Handlers.
Variable o : Outcomes.

Definition cleanup : M unit :=
  setStatus DISCONNECTED ;;
  setError "" ;;
  sid <- gets (fun w => ffmpegSessionId (app w)) ;;
  match sid with
  | Some id =>
      try_catch (call (FFmpegCancel id) (cancelThrows o))
                (fun _ => ret tt) ;;
      setFfmpegSessionId None
  | None => ret tt
  end ;;
  sock <- gets (fun w => commandSocket (app w)) ;;
  match sock with
  | Some s =>
      try_catch (call (SocketClose s) (closeThrows o))
                (fun _ => ret tt) ;;
      setCommandSocket None
  | None => ret tt
  end.

Definition checkPermissions : M bool :=
  match platformOS o with
  | android =>
      try_catch
        (emit PermissionRequest ;;
         match permissionRequest o with
         | Thrown m => throw m
         | Normal GRANTED => ret true
         | Normal _ =>
             setError "Location permission denied. Cannot scan for WiFi." ;;
             setStatus ERROR ;;
             ret false
         end)
        (fun _ =>
           setError "Error requesting location permission." ;;
           setStatus ERROR ;;
           ret false)
  | _ => ret true
  end.

Definition wrongNetworkMessage (name : string) : string :=
  "Connected to " ++ dquote ++ name ++ dquote ++
  ". Please connect to the Tello drone's WiFi network (starts with TELLO-).".

Definition checkNetwork : M bool :=
  setError "" ;;
  try_catch
    (emit NetInfoFetch ;;
     match netInfoFetch o with
     | Thrown m => throw m
     | Normal state =>
         match NetInfo.isConnected state with
         | Some true =>
             if negb (String.eqb (NetInfo.type state) "wifi") then
               setError "Please connect to a WiFi network." ;;
               setStatus ERROR ;;
               ret false
             else
               let name :=
                 match NetInfo.details state with
                 | Some d => NetInfo.ssid d
                 | None => None
                 end in
               match platformOS o, name with
               | android, Some n =>
                   if truthy name && negb (startsWith n "TELLO-") then
                     setError (wrongNetworkMessage n) ;;
                     setStatus ERROR ;;
                     ret false
                   else ret true
               | _, _ => ret true
               end
         | _ =>
             setError "No network connection." ;;
             setStatus ERROR ;;
             ret false
         end
     end)
    (fun m =>
       setError ("Failed to check network status: " ++ m) ;;
       setStatus ERROR ;;
       ret false).

Definition sendCommand (command : string) : M unit :=
  sock <- gets (fun w => commandSocket (app w)) ;;
  match sock with
  | None => throw "Socket not initialized"
  | Some s =>
      call (SocketSend s command 0 (js_length command)
                       TELLO_COMMAND_PORT TELLO_IP)
           (sendResult o command)
  end.

Definition ffmpegCommand : string :=
  "-f h264 -analyzeduration 2000000 -probesize 2000000 -fflags discardcorrupt -fflags nobuffer -flags low_delay -avioflags direct -i udp://0.0.0.0:11111 -c:v copy -muxdelay 0 -muxpreload 0 -f mpegts -listen 1 http://127.0.0.1:11112".

Definition startFFmpeg : M unit :=
  try_catch
    (emit (FFmpegExecute ffmpegCommand) ;;
     match executeAsyncResult o with
     | Thrown m => throw m
     | Normal sid => setFfmpegSessionId (Some sid)
     end)
    (fun m =>
       setError ("Failed to start FFmpeg: " ++ m) ;;
       setStatus ERROR ;;
       cleanup).

(** The promise around [commandSocket.current.bind(...)]. *)
Definition bindSocket : M unit :=
  sock <- gets (fun w => commandSocket (app w)) ;;
  match sock with
  | None => throw "Cannot read properties of null"
  | Some s =>
      emit (SocketBind s (Some LOCAL_COMMAND_PORT_BIND)) ;;
      match bindResult o with
      | Some m => throw ("Failed to bind socket to port 9000: " ++ m)
      | None => ret tt
      end
  end.

(** [startFFmpeg()] is called without [await]; it handles its own errors
    and never rejects, so running it in sequence is the same. *)
Definition initializeDrone : M unit :=
  setStatus CONNECTING ;;
  setError "" ;;
  try_catch
    (s <- createSocket o ;;
     setCommandSocket (Some s) ;;
     emit (SocketOn s "error") ;;
     emit (SocketOn s "message") ;;
     bindSocket ;;
     sendCommand "command" ;;
     emit (SetTimeout 500) ;;
     sendCommand "streamon" ;;
     emit (SetTimeout 500) ;;
     setStatus CONNECTED ;;
     startFFmpeg)
    (fun m =>
       setError ("Failed to initialize drone: " ++ m) ;;
       setStatus ERROR ;;
       cleanup).

Definition handleConnectPress : M unit :=
  st <- gets (fun w => status (app w)) ;;
  match st with
  | CONNECTING | CONNECTED | STREAMING => ret tt
  | _ =>
      setError "" ;;
      setStatus CONNECTING ;;
      permissionsGranted <- checkPermissions ;;
      if negb permissionsGranted then ret tt else
      networkReady <- checkNetwork ;;
      if negb networkReady then ret tt else
      initializeDrone
  end.

Definition handleDisconnectPress : M unit := cleanup.

  (** The handler attached to the socket's ['error'] event. *)
Definition onSocketError (message : string) : M unit :=
  setError ("UDP Socket error: " ++ message) ;;
  setStatus ERROR ;;
  cleanup.
End Handlers.

(** The handler attached to the socket's ['message'] event only logs. *)
Definition onSocketMessage (msg address : string) (port : N) : M unit :=
  ret tt.

(** The completion callback given to [FFmpegKit.executeAsync].  On success
    it only logs (the status it reads there decides a warning, nothing
    else). *)
Definition onFFmpegComplete (sessionId : SessionId) (returnCode : TerminalOutcome)
  : M unit :=
  (if isSuccess returnCode then ret tt
   else if isCancel returnCode then ret tt
   else
     setError "FFmpeg processing error. Check logs." ;;
     setStatus ERROR) ;;
  cur <- gets (fun w => ffmpegSessionId (app w)) ;;
  match cur with
  | Some id => if Pos.eqb id sessionId then setFfmpegSessionId None else ret tt
  | None => ret tt
  end.

Definition onVideoLoad : M unit :=
  st <- gets (fun w => status (app w)) ;;
  if negb (status_eqb st STREAMING) then
    setStatus STREAMING ;;
    setError ""
  else ret tt.

Definition videoErrorText (err : PlaybackError) : string :=
  let reason :=
    match err_error err with
    | Some d => localizedFailureReason d
    | None => None
    end in
  let description :=
    match err_error err with
    | Some d => localizedDescription d
    | None => None
    end in
  match js_or (js_or reason description) (Some "Unknown video error") with
  | Some s => s
  | None => "undefined"
  end.

Definition onVideoError (err : PlaybackError) : M unit :=
  setError ("Video playback error: " ++ videoErrorText err) ;;
  setStatus CONNECTED.

(** Everything that can happen to the component. *)
Inductive Event :=
| ConnectPress (o : Outcomes)
| DisconnectPress (o : Outcomes)
| Unmount (o : Outcomes)
| SocketError (message : string) (o : Outcomes)
| SocketMessage (msg address : string) (port : N)
| FFmpegCompleted (sessionId : SessionId) (returnCode : TerminalOutcome)
| VideoLoad
| VideoError (err : PlaybackError).

Definition handler (e : Event) : M unit :=
  match e with
  | ConnectPress o => handleConnectPress o
  | DisconnectPress o => handleDisconnectPress o
  | Unmount o => cleanup o
  | SocketError m o => onSocketError o m
  | SocketMessage m a p => onSocketMessage m a p
  | FFmpegCompleted sid rc => onFFmpegComplete sid rc
  | VideoLoad => onVideoLoad
  | VideoError err => onVideoError err
  end.

(** One event, its handler run to completion. *)
Definition step (w : World) (e : Event) : World := exec (handler e) w.

(** A run in which every event is handled to completion before the next
    one is delivered.  Events that arrive while a connect attempt or a
    teardown is suspended at an [await] are outside such runs. *)
Definition run (es : list Event) (w : World) : World := fold_left step es w.

End StatusApp.


(** ** The boolean-flag variant of [App.jsx] *)

Module FlagApp.

Record App := mkApp {
  isConnected : bool;
  isStreaming : bool;
  error : string;
  socket : option Socket;
  ffmpegSessionId : option SessionId
}.

Record World := mkWorld {
  app : App;
  effects : list Effect;
  nextSocket : Socket
}.

Definition initial : World :=
  mkWorld (mkApp false false "" None None) [] 0.

Definition M := Async World.

Definition setIsConnected (v : bool) : M unit :=
  modify (fun w => mkWorld (mkApp v (isStreaming (app w)) (error (app w))
                                  (socket (app w)) (ffmpegSessionId (app w)))
                           (effects w) (nextSocket w)).
Definition setIsStreaming (v : bool) : M unit :=
  modify (fun w => mkWorld (mkApp (isConnected (app w)) v (error (app w))
                                  (socket (app w)) (ffmpegSessionId (app w)))
                           (effects w) (nextSocket w)).
Definition setError (v : string) : M unit :=
  modify (fun w => mkWorld (mkApp (isConnected (app w)) (isStreaming (app w)) v
                                  (socket (app w)) (ffmpegSessionId (app w)))
                           (effects w) (nextSocket w)).
Definition setSocket (v : option Socket) : M unit :=
  modify (fun w => mkWorld (mkApp (isConnected (app w)) (isStreaming (app w))
                                  (error (app w)) v (ffmpegSessionId (app w)))
                           (effects w) (nextSocket w)).
Definition setFfmpegSessionId (v : option SessionId) : M unit :=
  modify (fun w => mkWorld (mkApp (isConnected (app w)) (isStreaming (app w))
                                  (error (app w)) (socket (app w)) v)
                           (effects w) (nextSocket w)).
Definition emit (e : Effect) : M unit :=
  modify (fun w => mkWorld (app w) (effects w ++ [e]) (nextSocket w)).

Definition call (e : Effect) (failure : option string) : M unit :=
  emit e ;;
  match failure with
  | Some m => throw m
  | None => ret tt
  end.

Definition createSocket (o : Outcomes) : M Socket :=
  match createSocketThrows o with
  | Some m => throw m
  | None =>
      s <- gets nextSocket ;;
      modify (fun w => mkWorld (app w) (effects w ++ [CreateSocket s])
                               (S (nextSocket w))) ;;
      ret s
  end.

Definition TELLO_PORT : N := 8889.
Definition LOCAL_VIDEO_PORT : N := 11111.
Definition LOCAL_OUTPUT_UDP_PORT : N := 11112.

Section Handlers.
Variable o : Outcomes.

Definition checkNetwork : M bool :=
  try_catch
    (emit NetInfoFetch ;;
     match netInfoFetch o with
     | Thrown m => throw m
     | Normal state =>
         match NetInfo.isConnected state with
         | Some true =>
             if negb (String.eqb (NetInfo.type state) "wifi") then
               setError "Please connect to the Tello drone's WiFi network" ;;
               ret false
             else
               let name :=
                 match NetInfo.details state with
                 | Some d => NetInfo.ssid d
                 | None => None
                 end in
               match platformOS o, name with
               | android, Some n =>
                   if truthy name && negb (startsWith n "TELLO-") then
                     setError "Please connect to the Tello drone's WiFi network (TELLO-*)" ;;
                     ret false
                   else ret true
               | _, _ => ret true
               end
         | _ =>
             setError "No network connection" ;;
             ret false
         end
     end)
    (fun m =>
       setError ("Failed to check network status: " ++ m) ;;
       ret false).

(** One turn of [for (const cmd of commands)]. *)
Definition sendAndWait (cmd : string) : M unit :=
  sock <- gets (fun w => socket (app w)) ;;
  match sock with
  | None => throw "Cannot read properties of null"
  | Some s =>
      call (SocketSend s cmd 0 (js_length cmd) TELLO_PORT TELLO_IP)
           (sendResult o cmd) ;;
      emit (SetTimeout 500)
  end.

Fixpoint forEach (commands : list string) : M unit :=
  match commands with
  | [] => ret tt
  | cmd :: rest => sendAndWait cmd ;; forEach rest
  end.

Definition ffmpegCommand : string :=
  "-f h264 -analyzeduration 2000000 -probesize 2000000 -fflags discardcorrupt -fflags nobuffer -flags low_delay -avioflags direct -i udp://0.0.0.0:11111 -c:v copy -muxdelay 0 -muxpreload 0 -f mpegts -listen 1 http://127.0.0.1:11112".

Definition startFFmpeg : M unit :=
  try_catch
    (emit (FFmpegExecute ffmpegCommand) ;;
     match executeAsyncResult o with
     | Thrown m => throw m
     | Normal sid =>
         setFfmpegSessionId (Some sid) ;;
         emit (SetTimeout 2000) ;;
         setIsStreaming true
     end)
    (fun _ =>
       emit (AlertShown "Error" "Failed to start video stream") ;;
       setIsStreaming false).

Definition bindSocket : M unit :=
  sock <- gets (fun w => socket (app w)) ;;
  match sock with
  | None => throw "Cannot read properties of null"
  | Some s => call (SocketBind s None) (bindResult o)
  end.

Definition initializeDrone : M unit :=
  try_catch
    (s <- createSocket o ;;
     setSocket (Some s) ;;
     emit (SocketOn s "error") ;;
     emit (SocketOn s "message") ;;
     bindSocket ;;
     forEach ["command"; "streamon"] ;;
     setIsConnected true ;;
     setError "" ;;
     startFFmpeg)
    (fun m =>
       let errorMsg := "Failed to initialize drone: " ++ m in
       setError errorMsg ;;
       emit (AlertShown "Initialization Error" errorMsg) ;;
       sock <- gets (fun w => socket (app w)) ;;
       match sock with
       | Some s =>
           call (SocketClose s) (closeThrows o) ;;
           setSocket None
       | None => ret tt
       end ;;
       setIsConnected false).

(** [checkPermissions] is declared nowhere in [App.jsx]: evaluating the
    call throws a [ReferenceError] before anything else happens. *)
Definition handleConnect : M unit :=
  hasPermission <- (throw "checkPermissions is not defined" : M bool) ;;
  if negb hasPermission then ret tt else
  isNetworkReady <- checkNetwork ;;
  if negb isNetworkReady then ret tt else
  initializeDrone.

Definition cleanup : M unit :=
  sid <- gets (fun w => ffmpegSessionId (app w)) ;;
  match sid with
  | Some id =>
      call (FFmpegCancel id) (cancelThrows o) ;;
      setFfmpegSessionId None
  | None => ret tt
  end ;;
  sock <- gets (fun w => socket (app w)) ;;
  match sock with
  | Some s =>
      call (SocketClose s) (closeThrows o) ;;
      setSocket None
  | None => ret tt
  end ;;
  setIsConnected false ;;
  setIsStreaming false.
End Handlers.

(** The player's [onLoad] only logs. *)
Definition onLoad : M unit := ret tt.

Definition onError : M unit :=
  emit (AlertShown "Error" "Video playback failed") ;;
  setIsStreaming false.

Definition onFFmpegComplete (returnCode : TerminalOutcome) : M unit :=
  if isSuccess returnCode then ret tt
  else
    setError "FFmpeg process failed. Check logs for details." ;;
    setIsStreaming false.

End FlagApp.


(** ** Scenarios used below *)

Module Scenario.
Import StatusApp.

Definition telloWifi : NetInfo.State :=
  {| NetInfo.isConnected := Some true;
     NetInfo.type := "wifi";
     NetInfo.details := Some {| NetInfo.ssid := Some "TELLO-5A1B2C" |} |}.

Definition linkDown : NetInfo.State :=
  {| NetInfo.isConnected := Some false;
     NetInfo.type := "none";
     NetInfo.details := None |}.

(** Everything answers favourably; FFmpegKit starts session [sid]. *)
Definition allFine (sid : SessionId) : Outcomes :=
  {| platformOS := android;
     permissionRequest := Normal GRANTED;
     netInfoFetch := Normal telloWifi;
     createSocketThrows := None;
     bindResult := None;
     sendResult := fun _ => None;
     executeAsyncResult := Normal sid;
     cancelThrows := None;
     closeThrows := None |}.

(** As [allFine], but the local port cannot be bound. *)
Definition bindFails : Outcomes :=
  {| platformOS := android;
     permissionRequest := Normal GRANTED;
     netInfoFetch := Normal telloWifi;
     createSocketThrows := None;
     bindResult := Some "EADDRINUSE";
     sendResult := fun _ => None;
     executeAsyncResult := Normal 1%positive;
     cancelThrows := None;
     closeThrows := None |}.

(** As [allFine], but the second handshake datagram cannot be sent. *)
Definition streamonFails : Outcomes :=
  {| platformOS := android;
     permissionRequest := Normal GRANTED;
     netInfoFetch := Normal telloWifi;
     createSocketThrows := None;
     bindResult := None;
     sendResult := fun c => if String.eqb c "streamon" then Some "ENETUNREACH" else None;
     executeAsyncResult := Normal 1%positive;
     cancelThrows := None;
     closeThrows := None |}.

(** No link is up. *)
Definition noLink : Outcomes :=
  {| platformOS := android;
     permissionRequest := Normal GRANTED;
     netInfoFetch := Normal linkDown;
     createSocketThrows := None;
     bindResult := None;
     sendResult := fun _ => None;
     executeAsyncResult := Normal 1%positive;
     cancelThrows := None;
     closeThrows := None |}.

(** No link is up, and the location permission is refused. *)
Definition noLinkDenied : Outcomes :=
  {| platformOS := android;
     permissionRequest := Normal DENIED;
     netInfoFetch := Normal linkDown;
     createSocketThrows := None;
     bindResult := None;
     sendResult := fun _ => None;
     executeAsyncResult := Normal 1%positive;
     cancelThrows := None;
     closeThrows := None |}.

(** A connected component that is not streaming yet. *)
Definition connected : World :=
  mkWorld (mkApp CONNECTED "" (Some 0) (Some 1%positive)) [] 1.

(** A component that is streaming through socket 0 and session 1. *)
Definition streaming : World :=
  mkWorld (mkApp STREAMING "" (Some 0) (Some 1%positive)) [] 1.

(** A component whose stored session, 2, is later than session 1. *)
Definition laterActive : World :=
  mkWorld (mkApp STREAMING "" (Some 1) (Some 2%positive)) [] 2.


Definition decodeFailure : PlaybackError :=
  {| err_error := Some {| localizedFailureReason := None;
                          localizedDescription := Some "decoder stalled" |} |}.

(** The component of [App.jsx] once the handshake is done. *)
Definition flagConnected : FlagApp.World :=
  FlagApp.mkWorld (FlagApp.mkApp true false "" (Some 0) None) [] 1.

End Scenario.

(** ** What the specification says, as predicates on the model *)

Module Claimed.
Import StatusApp.

(** A failed bind or send ends in [Error] with its message kept. *)
Definition failure_is_reported (o : Outcomes) (w : World) : Prop :=
  let w' := step w (ConnectPress o) in
  status (app w') = ERROR /\ error (app w') <> "".

(** A [Failed] outcome while streaming closes the command channel. *)
Definition failed_pipeline_closes_channel
  (sid : SessionId) (logs : string) (w : World) : Prop :=
  let w' := step w (FFmpegCompleted sid (Failed logs)) in
  status (app w') = ERROR /\
  commandSocket (app w') = None /\
  ffmpegSessionId (app w') = None.


(** A connect request while the link is down ends in
    [Error("No network connection")]. *)
Definition link_down_is_reported (o : Outcomes) (w : World) : Prop :=
  let w' := step w (ConnectPress o) in
  status (app w') = ERROR /\ error (app w') = "No network connection".

(** Only [onReady] turns a connected component into a streaming one; in
    [App.jsx] "connected, not streaming" is [isConnected && !isStreaming]. *)
Definition launch_does_not_stream (o : Outcomes) (w : FlagApp.World) : Prop :=
  FlagApp.isStreaming (FlagApp.app w) = false ->
  FlagApp.isStreaming (FlagApp.app (exec (FlagApp.startFFmpeg o) w)) = false.

End Claimed.


(** ** Derived notions used in the statements *)

Unset Implicit Arguments.

Module Observed.
Import StatusApp.

(** The calls [cleanup] makes from a given state. *)
Definition teardown_calls (a : App) : list Effect :=
  match ffmpegSessionId a with Some id => [FFmpegCancel id] | None => [] end ++
  match commandSocket a with Some s => [SocketClose s] | None => [] end.

(** The datagrams of a list of calls: text, destination port and host. *)
Fixpoint datagrams (es : list Effect) : list (string * N * string) :=
  match es with
  | [] => []
  | SocketSend _ msg _ _ port host :: es' => (msg, port, host) :: datagrams es'
  | _ :: es' => datagrams es'
  end.

(** The calls of a handshake on socket [s] bound to [port]. *)
Definition handshake_calls (s : Socket) (port : option N) : list Effect :=
  [ CreateSocket s;
    SocketOn s "error";
    SocketOn s "message";
    SocketBind s port;
    SocketSend s "command" 0 7 8889 "192.168.10.1";
    SetTimeout 500;
    SocketSend s "streamon" 0 8 8889 "192.168.10.1";
    SetTimeout 500 ].

(** The gate in front of a connect attempt lets the request through. *)
Definition accepts_connect (st : ConnectionStatus) : bool :=
  match st with
  | DISCONNECTED | ERROR => true
  | _ => false
  end.

(** The permission gate passes. *)
Definition permission_passes (o : Outcomes) : bool :=
  match platformOS o, permissionRequest o with
  | android, Normal GRANTED => true
  | android, _ => false
  | _, _ => true
  end.

(** The calls of the permission gate. *)
Definition permission_calls (o : Outcomes) : list Effect :=
  match platformOS o with
  | android => [PermissionRequest]
  | _ => []
  end.

(** The network preflight passes. *)
Definition network_passes (o : Outcomes) : bool :=
  match netInfoFetch o with
  | Normal state =>
      match NetInfo.isConnected state with
      | Some true =>
          String.eqb (NetInfo.type state) "wifi" &&
          match platformOS o, NetInfo.details state with
          | android, Some d =>
              match NetInfo.ssid d with
              | Some n => negb (truthy (Some n)) || startsWith n "TELLO-"
              | None => true
              end
          | _, _ => true
          end
      | _ => false
      end
  | Thrown _ => false
  end.

(** No link is up: NetInfo answers, and [isConnected] is not [true]. *)
Definition link_is_down (o : Outcomes) : bool :=
  match netInfoFetch o with
  | Normal state =>
      match NetInfo.isConnected state with
      | Some true => false
      | _ => true
      end
  | Thrown _ => false
  end.

(** The bind or one of the two sends of the handshake fails. *)
Definition handshake_fails (o : Outcomes) : bool :=
  match createSocketThrows o with
  | Some _ => false
  | None =>
      match bindResult o, sendResult o "command", sendResult o "streamon" with
      | None, None, None => false
      | _, _, _ => true
      end
  end.

(** The socket is created, bound, and both datagrams leave. *)
Definition handshake_succeeds (o : Outcomes) : bool :=
  match createSocketThrows o, bindResult o,
        sendResult o "command", sendResult o "streamon" with
  | None, None, None, None => true
  | _, _, _, _ => false
  end.

Definition is_pipeline_failure (e : Event) : bool :=
  match e with
  | FFmpegCompleted _ (Failed _) => true
  | _ => false
  end.

End Observed.

Module Attempt.
Import StatusApp Observed.

(** The calls of [initializeDrone] on a fresh socket [s], up to the first
    failure (or to the launch of the pipeline). *)
Definition attempt_calls (o : Outcomes) (s : Socket) : list Effect :=
  [ CreateSocket s; SocketOn s "error"; SocketOn s "message";
    SocketBind s (Some LOCAL_COMMAND_PORT_BIND) ] ++
  match bindResult o with
  | Some _ => []
  | None =>
      SocketSend s "command" 0 7 TELLO_COMMAND_PORT TELLO_IP ::
      match sendResult o "command" with
      | Some _ => []
      | None =>
          SetTimeout 500 ::
          SocketSend s "streamon" 0 8 TELLO_COMMAND_PORT TELLO_IP ::
          match sendResult o "streamon" with
          | Some _ => []
          | None => [SetTimeout 500; FFmpegExecute ffmpegCommand]
          end
      end
  end.

Definition torn_down (es : list Effect) (next : Socket) : World :=
  mkWorld (mkApp DISCONNECTED "" None None) es next.

(** The state [initializeDrone] leaves behind, in closed form. *)
Definition initializeDrone_outcome (o : Outcomes) (w : World) : World :=
  let s := nextSocket w in
  let cancel :=
    match ffmpegSessionId (app w) with
    | Some id => [FFmpegCancel id]
    | None => []
    end in
  match createSocketThrows o with
  | Some _ => torn_down (effects w ++ teardown_calls (app w)) s
  | None =>
      match handshake_succeeds o, executeAsyncResult o with
      | true, Normal sid =>
          mkWorld (mkApp CONNECTED "" (Some s) (Some sid))
                  (effects w ++ attempt_calls o s) (S s)
      | _, _ =>
          torn_down (effects w ++ attempt_calls o s ++ cancel ++ [SocketClose s])
                    (S s)
      end
  end.

(** The state in which [handleConnectPress] hands over to
    [initializeDrone]. *)
Definition preflight_done (o : Outcomes) (w : World) : World :=
  mkWorld (mkApp CONNECTING "" (commandSocket (app w)) (ffmpegSessionId (app w)))
          (effects w ++ permission_calls o ++ [NetInfoFetch]) (nextSocket w).

(** The calls of a connect request that reaches [initializeDrone] and gets
    its socket. *)
Definition connect_calls (o : Outcomes) (w : World) : list Effect :=
  permission_calls o ++ [NetInfoFetch] ++
  attempt_calls o (nextSocket w) ++
  match handshake_succeeds o, executeAsyncResult o with
  | true, Normal _ => []
  | _, _ =>
      match ffmpegSessionId (app w) with
      | Some id => [FFmpegCancel id]
      | None => []
      end ++ [SocketClose (nextSocket w)]
  end.

(** The sockets the component holds a handle of. *)
Definition held (a : App) : list Socket :=
  match commandSocket a with
  | Some s => [s]
  | None => []
  end.

(** Starting with [acc] open, no moment of [d] sees two sockets open. *)
Fixpoint safe_from (acc : list Socket) (d : list Effect) : bool :=
  Nat.leb (length acc) 1 &&
  match d with
  | [] => true
  | e :: d' => safe_from (track acc e) d'
  end.

(** What holds between two events as long as no pipeline fails. *)
Definition single_channel (w : World) : Prop :=
  open_sockets [] (effects w) = held (app w) /\
  (accepts_connect (status (app w)) = true -> commandSocket (app w) = None) /\
  at_most_one_open (effects w).

End Attempt.


(** ** What the component renders *)

Module View.
Import StatusApp.

(** The string value of the enum, as it is printed in the status line. *)
Definition statusName (st : ConnectionStatus) : string :=
  match st with
  | DISCONNECTED => "DISCONNECTED"
  | CONNECTING => "CONNECTING"
  | CONNECTED => "CONNECTED"
  | STREAMING => "STREAMING"
  | ERROR => "ERROR"
  end.

(** The middle of the screen: the player with its [paused] prop, or a
    placeholder with its text. *)
Inductive Content :=
| VideoPlayer (uri : string) (paused : bool)
| Placeholder (text : string).

Definition renderContent (st : ConnectionStatus) : Content :=
  match st with
  | STREAMING | CONNECTED | CONNECTING =>
      VideoPlayer "http://127.0.0.1:11112" (negb (status_eqb st STREAMING))
  | _ =>
      Placeholder (if status_eqb st ERROR then "Error State" else "Disconnected")
  end.

Definition getButtonText (st : ConnectionStatus) : string :=
  match st with
  | CONNECTING => "Connecting..."
  | CONNECTED => "Connected (No Stream)"
  | STREAMING => "Streaming..."
  | DISCONNECTED => "Connect to Drone"
  | ERROR => "Connect to Drone"
  end.

Definition isConnectButtonDisabled (st : ConnectionStatus) : bool :=
  status_eqb st CONNECTING || status_eqb st CONNECTED || status_eqb st STREAMING.

(** The condition in front of the Disconnect button. *)
Definition disconnectButtonShown (st : ConnectionStatus) : bool :=
  status_eqb st CONNECTED || status_eqb st STREAMING || status_eqb st CONNECTING.

Record Screen := {
  errorBanner : option string;
  statusLine : option string;
  content : Content;
  connectText : string;
  connectDisabled : bool;
  disconnectShown : bool
}.

(** The [return (...)] of the component. *)
Definition render (a : App) : Screen :=
  {| errorBanner := if truthy (Some (error a)) then Some (error a) else None;
     statusLine :=
       if truthy (Some (error a)) then None
       else Some ("Status: " ++ statusName (status a));
     content := renderContent (status a);
     connectText := getButtonText (status a);
     connectDisabled := isConnectButtonDisabled (status a);
     disconnectShown := disconnectButtonShown (status a) |}.

(** The player is on screen, so its [onLoad] and [onError] can fire. *)
Definition playerMounted (st : ConnectionStatus) : bool :=
  match renderContent st with
  | VideoPlayer _ _ => true
  | Placeholder _ => false
  end.

End View.

(** ** More derived notions *)

Module Preflight.
Import StatusApp Observed.

(** The message the permission gate records when it does not pass. *)
Definition permission_message (o : Outcomes) : string :=
  match permissionRequest o with
  | Thrown _ => "Error requesting location permission."
  | Normal _ => "Location permission denied. Cannot scan for WiFi."
  end.

(** The message the network preflight records when it does not pass. *)
Definition network_message (o : Outcomes) : string :=
  match netInfoFetch o with
  | Thrown m => "Failed to check network status: " ++ m
  | Normal state =>
      match NetInfo.isConnected state with
      | Some true =>
          if negb (String.eqb (NetInfo.type state) "wifi")
          then "Please connect to a WiFi network."
          else
            match NetInfo.details state with
            | Some d =>
                match NetInfo.ssid d with
                | Some n => wrongNetworkMessage n
                | None => ""
                end
            | None => ""
            end
      | _ => "No network connection."
      end
  end.

(** The message of a connect request that stops before the handshake. *)
Definition preflight_message (o : Outcomes) : string :=
  if permission_passes o then network_message o else permission_message o.

(** The calls of a connect request that stops before the handshake. *)
Definition preflight_calls (o : Outcomes) : list Effect :=
  permission_calls o ++ if permission_passes o then [NetInfoFetch] else [].

(** The wireless network the device reports, when it reports one. *)
Definition reported_ssid (o : Outcomes) : option string :=
  match netInfoFetch o with
  | Normal state =>
      match NetInfo.details state with
      | Some d => NetInfo.ssid d
      | None => None
      end
  | Thrown _ => None
  end.

(** NetInfo answers: connected, over wifi. *)
Definition on_wifi (o : Outcomes) : bool :=
  match netInfoFetch o with
  | Normal state =>
      match NetInfo.isConnected state with
      | Some true => String.eqb (NetInfo.type state) "wifi"
      | _ => false
      end
  | Thrown _ => false
  end.

(** The pipeline is launched. *)
Definition launch_succeeds (o : Outcomes) : bool :=
  match executeAsyncResult o with
  | Normal _ => true
  | Thrown _ => false
  end.


(** The calls an event makes, from the state it finds. *)
Definition calls_of (e : Event) (w : World) : list Effect :=
  match e with
  | ConnectPress o =>
      if accepts_connect (status (app w)) then
        if permission_passes o && network_passes o then
          match createSocketThrows o with
          | Some _ =>
              permission_calls o ++ [NetInfoFetch] ++ teardown_calls (app w)
          | None => Attempt.connect_calls o w
          end
        else preflight_calls o
      else []
  | DisconnectPress _ | Unmount _ | SocketError _ _ => teardown_calls (app w)
  | _ => []
  end.

(** A call the component is meant to make: datagrams are one of the two
    handshake commands, sent whole to the drone's command port; the socket
    is bound to the fixed local port; timers are the settling delay; the
    pipeline runs the fixed command. *)
Definition expected_call (e : Effect) : bool :=
  match e with
  | SocketSend _ msg offset len port host =>
      (String.eqb msg "command" || String.eqb msg "streamon") &&
      Nat.eqb offset 0 && Nat.eqb len (String.length msg) &&
      N.eqb port TELLO_COMMAND_PORT && String.eqb host TELLO_IP
  | SocketBind _ port =>
      match port with
      | Some p => N.eqb p LOCAL_COMMAND_PORT_BIND
      | None => false
      end
  | SocketOn _ event => String.eqb event "error" || String.eqb event "message"
  | SetTimeout ms => N.eqb ms 500
  | FFmpegExecute c => String.eqb c ffmpegCommand
  | AlertShown _ _ => false
  | _ => true
  end.

(** What holds of the component between two events. *)
Definition coherent (a : App) : Prop :=
  (status a = ERROR -> error a <> "") /\
  (status a = DISCONNECTED ->
   error a = "" /\ commandSocket a = None /\ ffmpegSessionId a = None).

Definition is_teardown (e : Event) : bool :=
  match e with
  | DisconnectPress _ | Unmount _ | SocketError _ _ => true
  | _ => false
  end.

End Preflight.

(** ** More scenarios *)

Module Cases.
Import StatusApp.

(** Outcomes that differ from [Scenario.allFine 1] in the platform, the
    network state and the launch of the pipeline. *)
Definition given (os : PlatformOS) (net : Completion NetInfo.State)
  (launch : Completion SessionId) : Outcomes :=
  {| platformOS := os;
     permissionRequest := Normal GRANTED;
     netInfoFetch := net;
     createSocketThrows := None;
     bindResult := None;
     sendResult := fun _ => None;
     executeAsyncResult := launch;
     cancelThrows := None;
     closeThrows := None |}.

Definition wifiNamed (name : string) : NetInfo.State :=
  {| NetInfo.isConnected := Some true;
     NetInfo.type := "wifi";
     NetInfo.details := Some {| NetInfo.ssid := Some name |} |}.

Definition cellular : NetInfo.State :=
  {| NetInfo.isConnected := Some true;
     NetInfo.type := "cellular";
     NetInfo.details := None |}.


(** The same network seen from iOS. *)
Definition foreignWifiOnIos : Outcomes :=
  given ios (Normal (wifiNamed "HomeNet")) (Normal 1%positive).

Definition onCellular : Outcomes :=
  given android (Normal cellular) (Normal 1%positive).

Definition fetchThrows : Outcomes :=
  given android (Thrown "timeout") (Normal 1%positive).

(** Everything succeeds up to the launch of the pipeline, which is
    rejected. *)
Definition launchFails : Outcomes :=
  given android (Normal (wifiNamed "TELLO-5A1B2C")) (Thrown "no such binary").

(** [FFmpegKit.cancel] rejects. *)
Definition cancelRejects : Outcomes :=
  {| platformOS := android;
     permissionRequest := Normal GRANTED;
     netInfoFetch := Normal (wifiNamed "TELLO-5A1B2C");
     createSocketThrows := None;
     bindResult := None;
     sendResult := fun _ => None;
     executeAsyncResult := Normal 1%positive;
     cancelThrows := Some "session not found";
     closeThrows := None |}.

(** The component of [App.jsx] while it streams. *)
Definition flagStreaming : FlagApp.World :=
  FlagApp.mkWorld (FlagApp.mkApp true true "" (Some 0) (Some 1%positive)) [] 1.

(** A component that has just been torn down, its session 1 cancelled. *)
Definition tornDown : World :=
  step Scenario.streaming (DisconnectPress (Scenario.allFine 1)).

End Cases.

(** ** Events of the variant of [App.jsx] *)

Module FlagEvents.

(** What can happen to the component of [App.jsx]: a press on Connect, an
    unmount, the two signals of the player and the completion of a
    pipeline session. *)
Inductive Event :=
| ConnectPress (o : Outcomes)
| Unmount (o : Outcomes)
| Load
| PlaybackError
| Completed (returnCode : TerminalOutcome).

Definition handler (e : Event) : FlagApp.M unit :=
  match e with
  | ConnectPress o => FlagApp.handleConnect o
  | Unmount o => FlagApp.cleanup o
  | Load => FlagApp.onLoad
  | PlaybackError => FlagApp.onError
  | Completed rc => FlagApp.onFFmpegComplete rc
  end.

Definition step (w : FlagApp.World) (e : Event) : FlagApp.World :=
  exec (handler e) w.

Definition run (es : list Event) (w : FlagApp.World) : FlagApp.World :=
  fold_left step es w.

Definition is_alert (e : Effect) : bool :=
  match e with
  | AlertShown _ _ => true
  | _ => false
  end.

(** Not connected, not streaming, no handle, and no call but alerts. *)
Definition idle (w : FlagApp.World) : Prop :=
  FlagApp.isConnected (FlagApp.app w) = false /\
  FlagApp.isStreaming (FlagApp.app w) = false /\
  FlagApp.socket (FlagApp.app w) = None /\
  FlagApp.ffmpegSessionId (FlagApp.app w) = None /\
  forallb is_alert (FlagApp.effects w) = true.

End FlagEvents.

(** ** Teardown *)

Import StatusApp Observed.

Ltac unfold_async :=
  unfold exec, bind, try_catch, ret, throw, gets, modify in *.

Ltac unfold_state :=
  unfold call, emit, setStatus, setError, setCommandSocket,
    setFfmpegSessionId in *.

Lemma cleanup_spec (o : Outcomes) (w : World) :
  cleanup o w =
  (Normal tt,
   mkWorld (mkApp DISCONNECTED "" None None)
           (effects w ++ teardown_calls (app w)) (nextSocket w)).
Proof.
  destruct w as [[st er so se] es nx].
  unfold cleanup, teardown_calls. unfold_state. unfold_async. simpl.
  destruct se as [id|], so as [s|]; simpl;
    destruct (cancelThrows o), (closeThrows o); simpl;
    rewrite <- ?app_assoc, ?app_nil_r; reflexivity.
Qed.

(** C9. From every state (in particular every non-Disconnected one), a
    disconnect request and an unmount both run the same teardown: the
    status becomes [DISCONNECTED], the error message is cleared, a stored
    pipeline session is cancelled, an open command socket is closed, and
    both handles are left null; the teardown never throws, also when
    cancel or close do.  Run again, with the channel already closed or
    never opened, it makes no call and changes nothing: twice equals
    once. *)
Theorem disconnect_tears_down (o o' : Outcomes) (w : World) :
  let w1 := step w (DisconnectPress o) in
  step w (Unmount o) = w1 /\
  fst (handler (DisconnectPress o) w) = Normal tt /\
  app w1 = mkApp DISCONNECTED "" None None /\
  effects w1 = (effects w ++ teardown_calls (app w))%list /\
  (forall id, ffmpegSessionId (app w) = Some id -> In (FFmpegCancel id) (effects w1)) /\
  (forall s, commandSocket (app w) = Some s -> In (SocketClose s) (effects w1)) /\
  step w1 (DisconnectPress o') = w1 /\
  step w1 (Unmount o') = w1 /\
  run [DisconnectPress o; DisconnectPress o'] w = run [DisconnectPress o] w.
Proof.
  cbv zeta. unfold run, step, handler, handleDisconnectPress, exec. simpl.
  rewrite !cleanup_spec. simpl. rewrite !app_nil_r.
  repeat split; try reflexivity.
  - intros id H. apply in_or_app. right. unfold teardown_calls.
    rewrite H. simpl. auto.
  - intros s H. apply in_or_app. right. unfold teardown_calls.
    rewrite H. apply in_or_app. right. simpl. auto.
Qed.

(** ** Playback events *)

Lemma videoErrorText_nonempty (err : PlaybackError) :
  videoErrorText err <> "".
Proof.
  unfold videoErrorText, js_or.
  destruct (err_error err) as [[[r|] [d|]]|]; simpl;
    repeat match goal with
           | |- context [String.eqb ?a ""] =>
               let E := fresh "E" in
               destruct (String.eqb a "") eqn:E; simpl
           end;
    try discriminate;
    intro H; subst;
    match goal with
    | E : String.eqb "" "" = false |- _ => discriminate E
    end.
Qed.

(** C5. When the player reports a playback error while the status is
    [STREAMING], the status becomes [CONNECTED] (not [ERROR]) and a
    non-empty message is attached; the socket handle and the pipeline
    session handle are left as they were (so non-null handles stay
    non-null) and no call at all, hence no close and no cancel, is made. *)
Theorem playback_error_demotes (err : PlaybackError) (w : World)
  (Hstreaming : status (app w) = STREAMING) :
  let w' := step w (VideoError err) in
  status (app w') = CONNECTED /\
  error (app w') = "Video playback error: " ++ videoErrorText err /\
  error (app w') <> "" /\
  commandSocket (app w') = commandSocket (app w) /\
  ffmpegSessionId (app w') = ffmpegSessionId (app w) /\
  (commandSocket (app w) <> None -> commandSocket (app w') <> None) /\
  (ffmpegSessionId (app w) <> None -> ffmpegSessionId (app w') <> None) /\
  effects w' = effects w /\
  nextSocket w' = nextSocket w.
Proof.
  destruct w as [[st er so se] es nx]. simpl in *.
  repeat split; auto; discriminate.
Qed.

Lemma playback_error_demotes_witness :
  let w' := step Scenario.streaming (VideoError Scenario.decodeFailure) in
  status (app w') = CONNECTED /\
  error (app w') = "Video playback error: decoder stalled" /\
  commandSocket (app w') = Some 0 /\
  ffmpegSessionId (app w') = Some 1%positive /\
  effects w' = [].
Proof.
  pose proof (playback_error_demotes Scenario.decodeFailure
                Scenario.streaming eq_refl) as H.
  cbv zeta in H. destruct H as (H1 & H2 & _ & H4 & H5 & _ & _ & H8 & _).
  repeat split; assumption.
Defined.





(** ** The pipeline's completion callback *)

Lemma onFFmpegComplete_session (sid : SessionId) (rc : TerminalOutcome) (w : World) :
  ffmpegSessionId (app (step w (FFmpegCompleted sid rc))) =
  match ffmpegSessionId (app w) with
  | Some cur => if Pos.eqb cur sid then None else Some cur
  | None => None
  end.
Proof.
  destruct w as [[st er so se] es nx].
  destruct rc, se as [cur|]; simpl; try reflexivity;
    unfold step, exec; simpl; unfold onFFmpegComplete; unfold_state; unfold_async; simpl;
    destruct (Pos.eqb cur sid); reflexivity.
Qed.

Lemma onFFmpegComplete_frame (sid : SessionId) (rc : TerminalOutcome) (w : World) :
  let w' := step w (FFmpegCompleted sid rc) in
  commandSocket (app w') = commandSocket (app w) /\
  effects w' = effects w /\
  nextSocket w' = nextSocket w.
Proof.
  destruct w as [[st er so se] es nx].
  unfold step, exec, handler, onFFmpegComplete. unfold_state. unfold_async.
  destruct rc, se as [cur|]; simpl; try (repeat split; reflexivity);
    destruct (Pos.eqb cur sid); repeat split; reflexivity.
Qed.

(** C10. The completion callback clears the stored session identifier only
    when it is the identifier of the session that just completed: with
    [later] stored, the identifier is cleared exactly when [later] is the
    completed session, so the callback of an earlier session leaves the
    identifier of a later session in place, whatever the outcome. *)
Theorem completion_clears_own_session
  (sid later : SessionId) (rc : TerminalOutcome) (w : World)
  (Hstored : ffmpegSessionId (app w) = Some later) :
  let w' := step w (FFmpegCompleted sid rc) in
  (later <> sid -> ffmpegSessionId (app w') = Some later) /\
  (later = sid -> ffmpegSessionId (app w') = None) /\
  (ffmpegSessionId (app w') = None -> later = sid) /\
  commandSocket (app w') = commandSocket (app w).
Proof.
  cbv zeta. rewrite onFFmpegComplete_session, Hstored.
  destruct (Pos.eqb_spec later sid) as [E|N].
  - repeat split; auto; try contradiction.
    apply onFFmpegComplete_frame.
  - repeat split; auto; try discriminate; try contradiction.
    apply onFFmpegComplete_frame.
Qed.

Lemma completion_clears_own_session_witness :
  ffmpegSessionId (app (step Scenario.laterActive (FFmpegCompleted 1 Cancelled)))
    = Some 2%positive /\
  ffmpegSessionId (app (step Scenario.laterActive (FFmpegCompleted 2 Cancelled)))
    = None.
Proof.
  split.
  - apply (completion_clears_own_session 1 2 Cancelled
             Scenario.laterActive eq_refl).
    discriminate.
  - apply (completion_clears_own_session 2 2 Cancelled
             Scenario.laterActive eq_refl).
    reflexivity.
Defined.

Lemma onFFmpegComplete_failed (sid : SessionId) (logs : string) (w : World) :
  step w (FFmpegCompleted sid (Failed logs)) =
  mkWorld (mkApp ERROR "FFmpeg processing error. Check logs."
                 (commandSocket (app w))
                 match ffmpegSessionId (app w) with
                 | Some cur => if Pos.eqb cur sid then None else Some cur
                 | None => None
                 end)
          (effects w) (nextSocket w).
Proof.
  destruct w as [[st er so se] es nx].
  unfold step, exec, handler, onFFmpegComplete. unfold_state. unfold_async.
  destruct se as [cur|]; simpl; try reflexivity.
  destruct (Pos.eqb cur sid); reflexivity.
Qed.

(** C2, as the code has it.  When the pipeline delivers a [Failed] outcome
    while the status is [STREAMING], the status becomes [ERROR] with the
    message "FFmpeg processing error. Check logs." and the stored session
    identifier, when it is the one of the failed session, is cleared; the
    command channel is not closed: its handle is left as it was and no call
    is made (the teardown is left to a later disconnect or unmount). *)
Theorem failed_pipeline_keeps_channel
  (sid : SessionId) (logs : string) (w : World)
  (Hstreaming : status (app w) = STREAMING) :
  let w' := step w (FFmpegCompleted sid (Failed logs)) in
  status (app w') = ERROR /\
  error (app w') = "FFmpeg processing error. Check logs." /\
  (ffmpegSessionId (app w) = Some sid -> ffmpegSessionId (app w') = None) /\
  commandSocket (app w') = commandSocket (app w) /\
  effects w' = effects w /\
  nextSocket w' = nextSocket w.
Proof.
  cbv zeta. rewrite onFFmpegComplete_failed. simpl.
  repeat split; auto.
  intros ->. rewrite Pos.eqb_refl. reflexivity.
Qed.

Lemma failed_pipeline_keeps_channel_witness :
  let w' := step Scenario.streaming (FFmpegCompleted 1 (Failed "broken pipe")) in
  status (app w') = ERROR /\
  ffmpegSessionId (app w') = None /\
  commandSocket (app w') = Some 0 /\
  effects w' = [].
Proof.
  pose proof (failed_pipeline_keeps_channel 1 "broken pipe"
                Scenario.streaming eq_refl) as H.
  cbv zeta in H. destruct H as (H1 & _ & H3 & H4 & H5 & _).
  repeat split; try assumption; apply H3; reflexivity.
Defined.

(** C2 as the specification states it fails: after a [Failed] outcome
    received while streaming, the command channel is still open. *)
Lemma failed_pipeline_leaves_channel_open :
  ~ Claimed.failed_pipeline_closes_channel 1 "broken pipe" Scenario.streaming.
Proof.
  unfold Claimed.failed_pipeline_closes_channel. intros (_ & H & _).
  discriminate H.
Qed.

(** ** The connect attempt *)

Import Attempt.

Lemma initializeDrone_spec (o : Outcomes) (w : World) :
  exec (initializeDrone o) w = initializeDrone_outcome o w.
Proof.
  destruct w as [[st er so se] es nx].
  unfold initializeDrone_outcome, handshake_succeeds, attempt_calls,
    teardown_calls, torn_down.
  unfold initializeDrone, startFFmpeg, bindSocket, sendCommand, createSocket.
  rewrite ?cleanup_spec.
  unfold exec, bind, try_catch, ret, throw, gets, modify, call, emit,
    setStatus, setError, setCommandSocket, setFfmpegSessionId.
  simpl.
  destruct (createSocketThrows o) as [c|]; simpl.
  - rewrite cleanup_spec. reflexivity.
  - destruct (bindResult o) as [b|]; simpl;
      [ rewrite cleanup_spec; unfold teardown_calls; simpl;
        rewrite <- ?app_assoc; reflexivity | ].
    destruct (sendResult o "command") as [c1|]; simpl;
      [ rewrite cleanup_spec; unfold teardown_calls; simpl;
        rewrite <- ?app_assoc; reflexivity | ].
    destruct (sendResult o "streamon") as [c2|]; simpl;
      [ rewrite cleanup_spec; unfold teardown_calls; simpl;
        rewrite <- ?app_assoc; reflexivity | ].
    destruct (executeAsyncResult o) as [sid|m]; simpl.
    + rewrite <- ?app_assoc. reflexivity.
    + rewrite cleanup_spec; unfold teardown_calls; simpl.
      rewrite <- ?app_assoc. reflexivity.
Qed.

Lemma connect_ignored (o : Outcomes) (w : World) :
  accepts_connect (status (app w)) = false ->
  step w (ConnectPress o) = w.
Proof.
  destruct w as [[st er so se] es nx]. simpl.
  destruct st; simpl; intro H; try discriminate H; reflexivity.
Qed.

Ltac pick_msg := first [ exists ""; reflexivity | eexists; reflexivity ].

Lemma checkPermissions_spec (o : Outcomes) (w : World) :
  exists msg,
    checkPermissions o w =
    if permission_passes o
    then (Normal true,
          mkWorld (app w) (effects w ++ permission_calls o) (nextSocket w))
    else (Normal false,
          mkWorld (mkApp ERROR msg (commandSocket (app w)) (ffmpegSessionId (app w)))
                  (effects w ++ permission_calls o) (nextSocket w)).
Proof.
  destruct w as [[st er so se] es nx].
  unfold checkPermissions, permission_passes, permission_calls.
  unfold_state. unfold_async. simpl.
  destruct (platformOS o); simpl.
  - destruct (permissionRequest o) as [[| |]|m]; simpl; pick_msg.
  - exists "". rewrite app_nil_r. reflexivity.
  - exists "". rewrite app_nil_r. reflexivity.
Qed.

Lemma checkNetwork_spec (o : Outcomes) (w : World) :
  exists msg,
    checkNetwork o w =
    if network_passes o
    then (Normal true,
          mkWorld (mkApp (status (app w)) "" (commandSocket (app w))
                         (ffmpegSessionId (app w)))
                  (effects w ++ [NetInfoFetch]) (nextSocket w))
    else (Normal false,
          mkWorld (mkApp ERROR msg (commandSocket (app w)) (ffmpegSessionId (app w)))
                  (effects w ++ [NetInfoFetch]) (nextSocket w)).
Proof.
  destruct w as [[st er so se] es nx].
  unfold checkNetwork, network_passes.
  unfold_state. unfold_async. simpl.
  destruct (netInfoFetch o) as [[[[|]|] ty dt]|m]; simpl;
    try pick_msg.
  destruct (String.eqb ty "wifi"); simpl; try pick_msg.
  destruct (platformOS o); simpl; try (exists ""; reflexivity).
  destruct dt as [[[n|]]|]; simpl; try (exists ""; reflexivity).
  destruct (String.eqb n ""); simpl; try (exists ""; reflexivity).
  destruct (startsWith n "TELLO-"); simpl; pick_msg.
Qed.

Lemma checkNetwork_link_down (o : Outcomes) (w : World) :
  link_is_down o = true ->
  checkNetwork o w =
  (Normal false,
   mkWorld (mkApp ERROR "No network connection." (commandSocket (app w))
                  (ffmpegSessionId (app w)))
           (effects w ++ [NetInfoFetch]) (nextSocket w)).
Proof.
  destruct w as [[st er so se] es nx].
  unfold checkNetwork, link_is_down.
  unfold_state. unfold_async. simpl.
  destruct (netInfoFetch o) as [[[[|]|] ty dt]|m]; simpl;
    intro H; try discriminate H; reflexivity.
Qed.

(** A connect request that passes the gate and both checks hands over to
    [initializeDrone]. *)
Lemma connect_initializes (o : Outcomes) (w : World) :
  accepts_connect (status (app w)) = true ->
  permission_passes o = true ->
  network_passes o = true ->
  step w (ConnectPress o) = initializeDrone_outcome o (preflight_done o w).
Proof.
  intros Ha Hp Hn.
  rewrite <- initializeDrone_spec.
  unfold step, handler, handleConnectPress, preflight_done.
  destruct w as [[st er so se] es nx]. simpl in Ha.
  assert (Hst : forall (k : M unit) (w0 : World),
             match st with
             | CONNECTING | CONNECTED | STREAMING => ret tt
             | _ => k
             end w0 = k w0)
    by (destruct st; try discriminate Ha; reflexivity).
  unfold exec at 1. unfold bind at 1. unfold gets at 1. simpl.
  rewrite Hst.
  unfold bind at 1. unfold setError at 1, modify at 1. simpl.
  unfold bind at 1. unfold setStatus at 1, modify at 1. simpl.
  unfold bind at 1.
  match goal with
  | |- context [checkPermissions o ?w0] =>
      destruct (checkPermissions_spec o w0) as [m1 E1]; rewrite E1
  end.
  rewrite Hp. simpl.
  unfold bind at 1.
  match goal with
  | |- context [checkNetwork o ?w0] =>
      destruct (checkNetwork_spec o w0) as [m2 E2]; rewrite E2
  end.
  rewrite Hn. simpl.
  rewrite <- app_assoc. reflexivity.
Qed.

(** Whatever fails in the handshake, the attempt ends torn down: the
    teardown that follows the [catch] overwrites the status and the message
    the [catch] has just recorded. *)
Lemma failed_handshake_outcome (o : Outcomes) (w : World) :
  accepts_connect (status (app w)) = true ->
  permission_passes o = true ->
  network_passes o = true ->
  handshake_fails o = true ->
  let w' := step w (ConnectPress o) in
  app w' = mkApp DISCONNECTED "" None None /\
  In (SocketClose (nextSocket w)) (effects w').
Proof.
  intros Ha Hp Hn Hf. cbv zeta. rewrite (connect_initializes _ _ Ha Hp Hn).
  unfold initializeDrone_outcome, handshake_succeeds, handshake_fails in *.
  simpl.
  destruct (createSocketThrows o); [discriminate Hf|].
  destruct (bindResult o), (sendResult o "command"), (sendResult o "streamon");
    try discriminate Hf; simpl; (split; [reflexivity|]);
    repeat (rewrite in_app_iff; simpl); intuition.
Qed.

(** C1, on the code.  A connect attempt whose bind fails (and likewise one
    whose second handshake datagram cannot be sent) does close the command
    socket, but it does not end in [ERROR] and its message does not stay
    inspectable: the [catch] of [initializeDrone] records the message and
    the [ERROR] status and then awaits [cleanup], which sets the status to
    [DISCONNECTED] and the message to the empty string. *)
Theorem failed_handshake_loses_error :
  let bound := step initial (ConnectPress Scenario.bindFails) in
  let sent := step initial (ConnectPress Scenario.streamonFails) in
  app bound = mkApp DISCONNECTED "" None None /\
  effects bound =
    [ PermissionRequest; NetInfoFetch; CreateSocket 0; SocketOn 0 "error";
      SocketOn 0 "message"; SocketBind 0 (Some 9000%N); SocketClose 0 ] /\
  app sent = mkApp DISCONNECTED "" None None /\
  In (SocketClose 0) (effects sent) /\
  ~ Claimed.failure_is_reported Scenario.bindFails initial /\
  ~ Claimed.failure_is_reported Scenario.streamonFails initial.
Proof.
  cbv zeta.
  destruct (failed_handshake_outcome Scenario.bindFails initial
              eq_refl eq_refl eq_refl eq_refl) as [Hb _].
  destruct (failed_handshake_outcome Scenario.streamonFails initial
              eq_refl eq_refl eq_refl eq_refl) as [Hs Hc].
  repeat split; try assumption; try reflexivity.
  - unfold Claimed.failure_is_reported. cbv zeta. rewrite Hb. simpl.
    intros [H _]. discriminate H.
  - unfold Claimed.failure_is_reported. cbv zeta. rewrite Hs. simpl.
    intros [H _]. discriminate H.
Qed.

(** ** The handshake *)

Lemma flag_initializeDrone_effects (o : Outcomes) (w : FlagApp.World) :
  handshake_succeeds o = true ->
  FlagApp.effects (exec (FlagApp.initializeDrone o) w) =
  (FlagApp.effects w ++
   handshake_calls (FlagApp.nextSocket w) None ++
   FFmpegExecute FlagApp.ffmpegCommand ::
   match executeAsyncResult o with
   | Normal _ => [SetTimeout 2000]
   | Thrown _ => [AlertShown "Error" "Failed to start video stream"]
   end)%list.
Proof.
  destruct w as [[ic isr er so se] es nx].
  unfold handshake_succeeds, handshake_calls.
  unfold FlagApp.initializeDrone, FlagApp.startFFmpeg, FlagApp.bindSocket,
    FlagApp.forEach, FlagApp.sendAndWait, FlagApp.createSocket.
  unfold exec, bind, try_catch, ret, throw, gets, modify, FlagApp.call,
    FlagApp.emit, FlagApp.setIsConnected, FlagApp.setIsStreaming,
    FlagApp.setError, FlagApp.setSocket, FlagApp.setFfmpegSessionId.
  simpl.
  destruct (createSocketThrows o); [discriminate|].
  destruct (bindResult o); [discriminate|].
  destruct (sendResult o "command"); [discriminate|].
  destruct (sendResult o "streamon"); [discriminate|].
  intros _. simpl.
  destruct (executeAsyncResult o); simpl; rewrite <- ?app_assoc; reflexivity.
Qed.

(** C6. In a connect attempt whose socket is created and bound and whose
    sends succeed, the calls made are exactly: create, attach the two
    listeners, bind, send "command" to 192.168.10.1:8889, wait 500, send
    "streamon" to 192.168.10.1:8889, wait 500, and then the launch of the
    pipeline, after which no datagram is sent.  So exactly two datagrams
    leave, in that order, each followed by a delay of 500; nothing is
    awaited between a send and its delay, a send succeeds as soon as its
    call-back reports no error, and a datagram received from the device
    changes nothing.  Both variants of the component do this ([App.jsx]
    binds an unspecified port). *)
Theorem handshake_sends_two_datagrams
  (o : Outcomes) (w : World) (wf : FlagApp.World)
  (Hok : handshake_succeeds o = true) :
  let w' := exec (initializeDrone o) w in
  let wf' := exec (FlagApp.initializeDrone o) wf in
  (exists rest,
     effects w' =
       (effects w ++ handshake_calls (nextSocket w) (Some 9000%N) ++
        FFmpegExecute ffmpegCommand :: rest)%list /\
     datagrams rest = []) /\
  (exists rest,
     FlagApp.effects wf' =
       (FlagApp.effects wf ++ handshake_calls (FlagApp.nextSocket wf) None ++
        FFmpegExecute FlagApp.ffmpegCommand :: rest)%list /\
     datagrams rest = []) /\
  (forall s port,
     datagrams (handshake_calls s port) =
     [ ("command", TELLO_COMMAND_PORT, TELLO_IP);
       ("streamon", TELLO_COMMAND_PORT, TELLO_IP) ]) /\
  (forall sid, executeAsyncResult o = Normal sid ->
     status (app w') = CONNECTED /\ FlagApp.isConnected (FlagApp.app wf') = true) /\
  (forall msg address port v, step v (SocketMessage msg address port) = v).
Proof.
  cbv zeta. repeat split.
  - rewrite initializeDrone_spec.
    unfold initializeDrone_outcome, attempt_calls, handshake_calls.
    rewrite Hok. unfold handshake_succeeds in Hok.
    destruct (createSocketThrows o); [discriminate Hok|].
    destruct (bindResult o); [discriminate Hok|].
    destruct (sendResult o "command"); [discriminate Hok|].
    destruct (sendResult o "streamon"); [discriminate Hok|].
    destruct (executeAsyncResult o); simpl.
    + exists []. split; reflexivity.
    + eexists. split; [reflexivity|].
      destruct (ffmpegSessionId (app w)); reflexivity.
  - rewrite (flag_initializeDrone_effects _ _ Hok).
    eexists. split; [reflexivity|].
    destruct (executeAsyncResult o); reflexivity.
  - rewrite initializeDrone_spec. unfold initializeDrone_outcome.
    rewrite Hok, H.
    unfold handshake_succeeds in Hok.
    destruct (createSocketThrows o); [discriminate Hok|]. reflexivity.
  - revert Hok. destruct wf as [[ic isr er so se] es nx].
    unfold handshake_succeeds.
    unfold FlagApp.initializeDrone, FlagApp.startFFmpeg, FlagApp.bindSocket,
      FlagApp.forEach, FlagApp.sendAndWait, FlagApp.createSocket.
    unfold exec, bind, try_catch, ret, throw, gets, modify, FlagApp.call,
      FlagApp.emit, FlagApp.setIsConnected, FlagApp.setIsStreaming,
      FlagApp.setError, FlagApp.setSocket, FlagApp.setFfmpegSessionId.
    simpl.
    destruct (createSocketThrows o); [discriminate|].
    destruct (bindResult o); [discriminate|].
    destruct (sendResult o "command"); [discriminate|].
    destruct (sendResult o "streamon"); [discriminate|].
    rewrite H. reflexivity.
Qed.

Lemma handshake_sends_two_datagrams_witness :
  effects (exec (initializeDrone (Scenario.allFine 1)) initial) =
    [ CreateSocket 0; SocketOn 0 "error"; SocketOn 0 "message";
      SocketBind 0 (Some 9000%N);
      SocketSend 0 "command" 0 7 8889 "192.168.10.1"; SetTimeout 500;
      SocketSend 0 "streamon" 0 8 8889 "192.168.10.1"; SetTimeout 500;
      FFmpegExecute ffmpegCommand ] /\
  status (app (exec (initializeDrone (Scenario.allFine 1)) initial)) = CONNECTED.
Proof.
  destruct (handshake_sends_two_datagrams (Scenario.allFine 1) initial
              FlagApp.initial eq_refl)
    as ((rest & _ & _) & _ & _ & H & _).
  split; [reflexivity|]. apply (H 1%positive). reflexivity.
Defined.

(** ** The network preflight *)

Lemma flag_checkNetwork_link_down (o : Outcomes) (w : FlagApp.World) :
  link_is_down o = true ->
  FlagApp.checkNetwork o w =
  (Normal false,
   FlagApp.mkWorld
     (FlagApp.mkApp (FlagApp.isConnected (FlagApp.app w))
                    (FlagApp.isStreaming (FlagApp.app w))
                    "No network connection"
                    (FlagApp.socket (FlagApp.app w))
                    (FlagApp.ffmpegSessionId (FlagApp.app w)))
     (FlagApp.effects w ++ [NetInfoFetch]) (FlagApp.nextSocket w)).
Proof.
  destruct w as [[ic isr er so se] es nx].
  unfold FlagApp.checkNetwork, link_is_down.
  unfold exec, bind, try_catch, ret, throw, gets, modify, FlagApp.emit,
    FlagApp.setError.
  simpl.
  destruct (netInfoFetch o) as [[[[|]|] ty dt]|m]; simpl;
    intro H; try discriminate H; reflexivity.
Qed.

(** C8, as the code has it.  A connect request that passes the gate
    (status [DISCONNECTED] or [ERROR]) and the permission check while no
    link is up stops at the network preflight: besides the permission
    prompt and the NetInfo query no call is made (no socket is created,
    nothing is sent), the handles are left as they were, and the final
    status is [ERROR] with the message "No network connection." (with a
    full stop).  The same check in [App.jsx] records "No network
    connection" (no full stop) and answers [false]; that variant has no
    status. *)
Theorem link_down_stops_at_preflight
  (o : Outcomes) (w : World) (wf : FlagApp.World)
  (Haccepted : accepts_connect (status (app w)) = true)
  (Hpermitted : permission_passes o = true)
  (Hdown : link_is_down o = true) :
  let w' := step w (ConnectPress o) in
  status (app w') = ERROR /\
  error (app w') = "No network connection." /\
  commandSocket (app w') = commandSocket (app w) /\
  ffmpegSessionId (app w') = ffmpegSessionId (app w) /\
  effects w' = (effects w ++ permission_calls o ++ [NetInfoFetch])%list /\
  nextSocket w' = nextSocket w /\
  fst (FlagApp.checkNetwork o wf) = Normal false /\
  FlagApp.error (FlagApp.app (exec (FlagApp.checkNetwork o) wf))
    = "No network connection".
Proof.
  cbv zeta.
  rewrite (flag_checkNetwork_link_down _ wf Hdown). unfold exec.
  rewrite (flag_checkNetwork_link_down _ wf Hdown). simpl.
  assert (E : step w (ConnectPress o) =
              mkWorld (mkApp ERROR "No network connection."
                             (commandSocket (app w)) (ffmpegSessionId (app w)))
                      (effects w ++ permission_calls o ++ [NetInfoFetch])
                      (nextSocket w)).
  { unfold step, handler, handleConnectPress.
    destruct w as [[st er so se] es nx]. simpl in Haccepted.
    assert (Hst : forall (k : M unit) (w0 : World),
               match st with
               | CONNECTING | CONNECTED | STREAMING => ret tt
               | _ => k
               end w0 = k w0)
      by (destruct st; try discriminate Haccepted; reflexivity).
    unfold exec at 1. unfold bind at 1. unfold gets at 1. simpl.
    rewrite Hst.
    unfold bind at 1. unfold setError at 1, modify at 1. simpl.
    unfold bind at 1. unfold setStatus at 1, modify at 1. simpl.
    unfold bind at 1.
    match goal with
    | |- context [checkPermissions o ?w0] =>
        destruct (checkPermissions_spec o w0) as [m1 E1]; rewrite E1
    end.
    rewrite Hpermitted. simpl.
    unfold bind at 1.
    rewrite (checkNetwork_link_down _ _ Hdown). simpl.
    rewrite <- app_assoc. reflexivity. }
  rewrite E. simpl. repeat split; reflexivity.
Qed.

Lemma link_down_stops_at_preflight_witness :
  let w' := step initial (ConnectPress Scenario.noLink) in
  status (app w') = ERROR /\
  error (app w') = "No network connection." /\
  effects w' = [PermissionRequest; NetInfoFetch].
Proof.
  destruct (link_down_stops_at_preflight Scenario.noLink initial
              FlagApp.initial eq_refl eq_refl eq_refl)
    as (H1 & H2 & _ & _ & H5 & _).
  cbv zeta. repeat split; assumption.
Defined.

(** C8 as the specification states it fails, at three connect requests
    made while the link is down: one that reaches the preflight (the
    message recorded ends with a full stop), one whose permission prompt is
    refused (the permission message is recorded instead), and one made
    while connected (the request is ignored). *)
Lemma link_down_message_differs :
  ~ Claimed.link_down_is_reported Scenario.noLink initial /\
  ~ Claimed.link_down_is_reported Scenario.noLinkDenied initial /\
  ~ Claimed.link_down_is_reported Scenario.noLink Scenario.connected.
Proof.
  unfold Claimed.link_down_is_reported. repeat split.
  - intros [_ H]. discriminate H.
  - intros [_ H]. discriminate H.
  - intros [H _]. discriminate H.
Qed.

(** ** From connected to streaming *)

(** In the status-machine variant the ready signal of the player is the
    only event that turns [CONNECTED] into [STREAMING]. *)
Lemma only_ready_starts_streaming (e : Event) (w : World) :
  status (app w) = CONNECTED ->
  status (app (step w e)) = STREAMING ->
  e = VideoLoad.
Proof.
  intros Hc Hs. destruct e as [o|o|o|m o|m a p|sid rc| |err];
    try reflexivity; exfalso; revert Hs.
  - rewrite connect_ignored by (rewrite Hc; reflexivity).
    rewrite Hc. discriminate.
  - unfold step, exec, handler, handleDisconnectPress.
    rewrite cleanup_spec. discriminate.
  - unfold step, exec, handler. rewrite cleanup_spec. discriminate.
  - unfold step, exec, handler, onSocketError.
    unfold bind at 1. unfold setError at 1, modify at 1.
    unfold bind at 1. unfold setStatus at 1, modify at 1.
    rewrite cleanup_spec. discriminate.
  - change (step w (SocketMessage m a p)) with w.
    rewrite Hc. discriminate.
  - destruct w as [[st er so se] es nx]. simpl in Hc. subst st.
    unfold step, exec, handler, onFFmpegComplete. unfold_state. unfold_async.
    destruct rc, se as [cur|]; simpl; try discriminate;
      destruct (Pos.eqb cur sid); discriminate.
  - destruct w as [[st er so se] es nx]. simpl. discriminate.
Qed.

(** Launching the pipeline does not touch a [CONNECTED] status, unless the
    launch fails and the component is torn down. *)
Lemma launch_keeps_status (o : Outcomes) (w : World) :
  status (app (exec (startFFmpeg o) w)) = status (app w) \/
  status (app (exec (startFFmpeg o) w)) = DISCONNECTED.
Proof.
  destruct w as [[st er so se] es nx].
  unfold startFFmpeg, exec, try_catch, bind, emit, modify, throw,
    setFfmpegSessionId, setError, setStatus.
  destruct (executeAsyncResult o); simpl.
  - left. reflexivity.
  - right. rewrite cleanup_spec. reflexivity.
Qed.

Lemma flag_launch_streams (o : Outcomes) (sid : SessionId) (w : FlagApp.World) :
  executeAsyncResult o = Normal sid ->
  exec (FlagApp.startFFmpeg o) w =
  FlagApp.mkWorld
    (FlagApp.mkApp (FlagApp.isConnected (FlagApp.app w)) true
                   (FlagApp.error (FlagApp.app w))
                   (FlagApp.socket (FlagApp.app w)) (Some sid))
    (FlagApp.effects w ++ [FFmpegExecute FlagApp.ffmpegCommand; SetTimeout 2000])
    (FlagApp.nextSocket w).
Proof.
  intros H. destruct w as [[ic isr er so se] es nx].
  unfold FlagApp.startFFmpeg.
  unfold exec, bind, try_catch, ret, throw, gets, modify, FlagApp.emit,
    FlagApp.setIsStreaming, FlagApp.setFfmpegSessionId.
  rewrite H. simpl. rewrite <- app_assoc. reflexivity.
Qed.

(** The function [startFFmpeg] of [App.jsx], taken on its own: called on a
    component that is connected and not streaming, it sets [isStreaming]
    once the launch has been accepted and 2000 time-units have passed, and
    the ready signal of the player changes nothing.  The component of
    [App.jsx] never gets there: see [FlagEvents.idle]. *)
Lemma flag_launch_starts_streaming :
  let w' := exec (FlagApp.startFFmpeg (Scenario.allFine 1)) Scenario.flagConnected in
  FlagApp.isConnected (FlagApp.app Scenario.flagConnected) = true /\
  FlagApp.isStreaming (FlagApp.app Scenario.flagConnected) = false /\
  FlagApp.isStreaming (FlagApp.app w') = true /\
  FlagApp.effects w' = [FFmpegExecute FlagApp.ffmpegCommand; SetTimeout 2000] /\
  exec FlagApp.onLoad Scenario.flagConnected = Scenario.flagConnected /\
  ~ Claimed.launch_does_not_stream (Scenario.allFine 1) Scenario.flagConnected.
Proof.
  cbv zeta.
  rewrite (flag_launch_streams (Scenario.allFine 1) 1%positive
             Scenario.flagConnected eq_refl).
  repeat split.
  unfold Claimed.launch_does_not_stream.
  rewrite (flag_launch_streams (Scenario.allFine 1) 1%positive
             Scenario.flagConnected eq_refl).
  simpl. intro H. specialize (H eq_refl). discriminate H.
Qed.

(** ** One command channel at a time *)

Lemma open_sockets_app (acc : list Socket) (es d : list Effect) :
  open_sockets acc (es ++ d) = open_sockets (open_sockets acc es) d.
Proof. unfold open_sockets. apply fold_left_app. Qed.

Lemma safe_from_prefixes (d : list Effect) :
  forall acc, safe_from acc d = true ->
  forall n, length (open_sockets acc (firstn n d)) <= 1.
Proof.
  induction d as [|e d IH]; intros acc H n; simpl in H;
    apply andb_prop in H; destruct H as [Hl Hd];
    apply Nat.leb_le in Hl.
  - rewrite firstn_nil. exact Hl.
  - destruct n as [|n]; simpl; [exact Hl|]. apply IH. exact Hd.
Qed.

Lemma at_most_one_open_app (es d : list Effect) :
  at_most_one_open es ->
  safe_from (open_sockets [] es) d = true ->
  at_most_one_open (es ++ d).
Proof.
  intros Hes Hd n. rewrite firstn_app, open_sockets_app.
  destruct (Nat.le_gt_cases n (length es)) as [Hle|Hgt].
  - replace (n - length es) with 0 by lia. simpl. apply Hes.
  - rewrite firstn_all2 by lia.
    apply safe_from_prefixes. exact Hd.
Qed.

Lemma at_most_one_open_nil : at_most_one_open [].
Proof. intro n. rewrite firstn_nil. simpl. lia. Qed.

(** An event that appends the calls [d] keeps the invariant when [d] is
    safe and ends with the sockets the component holds. *)
Lemma single_channel_extend (w w' : World) (d : list Effect) :
  single_channel w ->
  effects w' = (effects w ++ d)%list ->
  safe_from (held (app w)) d = true ->
  open_sockets (held (app w)) d = held (app w') ->
  (accepts_connect (status (app w')) = true -> commandSocket (app w') = None) ->
  single_channel w'.
Proof.
  intros (Ho & _ & Ha) He Hs Hd Hn. unfold single_channel.
  rewrite He, open_sockets_app, Ho. repeat split; auto.
  apply at_most_one_open_app; [exact Ha|]. rewrite Ho. exact Hs.
Qed.

Ltac same_socket :=
  repeat match goal with
         | |- context [Nat.eq_dec ?a ?a] =>
             destruct (Nat.eq_dec a a); [|contradiction]
         end.

Lemma teardown_keeps_single_channel (w w' : World) (pre : list Effect) :
  single_channel w ->
  (forall e, In e pre -> track (held (app w)) e = held (app w)) ->
  w' = torn_down (effects w ++ pre ++ teardown_calls (app w)) (nextSocket w) ->
  single_channel w'.
Proof.
  intros Hw Hpre ->.
  assert (Hq : forall p, (forall e, In e p -> track (held (app w)) e = held (app w)) ->
               open_sockets (held (app w)) p = held (app w) /\
               forall d, safe_from (held (app w)) d = true ->
                         safe_from (held (app w)) (p ++ d) = true).
  { induction p as [|e p IH]; intros Hp; simpl.
    - split; auto.
    - unfold open_sockets in *. simpl. rewrite (Hp e (or_introl eq_refl)).
      destruct IH as [IH1 IH2]; [intros; apply Hp; right; assumption|].
      split; [exact IH1|]. intros d Hd.
      replace (Nat.leb (length (held (app w))) 1) with true
        by (unfold held; destruct (commandSocket (app w)); reflexivity).
      simpl. apply IH2, Hd. }
  destruct (Hq pre Hpre) as [Hq1 Hq2].
  apply (single_channel_extend w _ (pre ++ teardown_calls (app w))%list).
  - exact Hw.
  - reflexivity.
  - apply Hq2. unfold teardown_calls, held.
    destruct (ffmpegSessionId (app w)), (commandSocket (app w)); simpl;
      same_socket; reflexivity.
  - rewrite open_sockets_app, Hq1. unfold teardown_calls, held, open_sockets.
    destruct (ffmpegSessionId (app w)), (commandSocket (app w)); simpl;
      same_socket; reflexivity.
  - reflexivity.
Qed.

Lemma connect_preflight_fails (o : Outcomes) (w : World) :
  accepts_connect (status (app w)) = true ->
  permission_passes o && network_passes o = false ->
  exists msg,
    step w (ConnectPress o) =
    mkWorld (mkApp ERROR msg (commandSocket (app w)) (ffmpegSessionId (app w)))
            (effects w ++ permission_calls o ++
             if permission_passes o then [NetInfoFetch] else [])
            (nextSocket w).
Proof.
  intros Ha Hf.
  unfold step, handler, handleConnectPress.
  destruct w as [[st er so se] es nx]. simpl in Ha.
  assert (Hst : forall (k : M unit) (w0 : World),
             match st with
             | CONNECTING | CONNECTED | STREAMING => ret tt
             | _ => k
             end w0 = k w0)
    by (destruct st; try discriminate Ha; reflexivity).
  unfold exec at 1. unfold bind at 1. unfold gets at 1. simpl.
  rewrite Hst.
  unfold bind at 1. unfold setError at 1, modify at 1. simpl.
  unfold bind at 1. unfold setStatus at 1, modify at 1. simpl.
  unfold bind at 1.
  match goal with
  | |- context [checkPermissions o ?w0] =>
      destruct (checkPermissions_spec o w0) as [m1 E1]; rewrite E1
  end.
  destruct (permission_passes o); simpl in *.
  - unfold bind at 1.
    match goal with
    | |- context [checkNetwork o ?w0] =>
        destruct (checkNetwork_spec o w0) as [m2 E2]; rewrite E2
    end.
    rewrite Hf. simpl. exists m2. rewrite <- app_assoc. reflexivity.
  - exists m1. rewrite app_nil_r. reflexivity.
Qed.

Lemma quiet_preflight (o : Outcomes) (acc : list Socket) (e : Effect) :
  In e (permission_calls o ++ [NetInfoFetch]) -> track acc e = acc.
Proof.
  unfold permission_calls.
  destruct (platformOS o); simpl; intuition; subst; reflexivity.
Qed.

(** Every event other than a pipeline failure keeps the invariant. *)
Lemma single_channel_step (e : Event) (w : World) :
  is_pipeline_failure e = false ->
  single_channel w ->
  single_channel (step w e).
Proof.
  intros Hne Hw.
  destruct e as [o|o|o|m o|m a p|sid rc| |err].
  - (* connect *)
    destruct (accepts_connect (status (app w))) eqn:Ha;
      [|rewrite connect_ignored by exact Ha; exact Hw].
    assert (Hnone : commandSocket (app w) = None)
      by (destruct Hw as (_ & H & _); exact (H Ha)).
    destruct (permission_passes o && network_passes o) eqn:Hp.
    + apply andb_prop in Hp. destruct Hp as [Hp Hn].
      rewrite (connect_initializes _ _ Ha Hp Hn).
      unfold initializeDrone_outcome.
      destruct (createSocketThrows o) as [c|] eqn:Hc.
      * apply (teardown_keeps_single_channel w _
                 (permission_calls o ++ [NetInfoFetch])%list Hw).
        -- intros e. apply quiet_preflight.
        -- unfold preflight_done, teardown_calls. simpl.
           rewrite <- !app_assoc. reflexivity.
      * assert (Hheld : held (app w) = [])
          by (unfold held; rewrite Hnone; reflexivity).
        apply (single_channel_extend w _ (connect_calls o w) Hw).
        -- unfold connect_calls, handshake_succeeds, preflight_done. rewrite Hc.
           destruct (bindResult o), (sendResult o "command"),
             (sendResult o "streamon"), (executeAsyncResult o);
             simpl; rewrite <- ?app_assoc; simpl; rewrite ?app_nil_r;
             reflexivity.
        -- rewrite Hheld.
           unfold connect_calls, handshake_succeeds, attempt_calls,
             permission_calls. rewrite Hc.
           destruct (platformOS o), (bindResult o), (sendResult o "command"),
             (sendResult o "streamon"), (executeAsyncResult o),
             (ffmpegSessionId (app w));
             simpl; same_socket; reflexivity.
        -- rewrite Hheld.
           unfold connect_calls, handshake_succeeds, attempt_calls,
             permission_calls, open_sockets, held. rewrite Hc.
           destruct (platformOS o), (bindResult o), (sendResult o "command"),
             (sendResult o "streamon"), (executeAsyncResult o),
             (ffmpegSessionId (app w));
             simpl; same_socket; reflexivity.
        -- unfold handshake_succeeds. rewrite Hc.
           destruct (bindResult o), (sendResult o "command"),
             (sendResult o "streamon"), (executeAsyncResult o);
             simpl; intro H; try reflexivity; discriminate H.
    + destruct (connect_preflight_fails o w Ha Hp) as [msg E]. rewrite E.
      match goal with
      | |- single_channel ?w1 =>
          apply (single_channel_extend w w1
                   (permission_calls o ++
                    if permission_passes o then [NetInfoFetch] else [])%list Hw)
      end.
      * reflexivity.
      * unfold held, permission_calls. rewrite Hnone.
        destruct (platformOS o), (permission_passes o); reflexivity.
      * unfold held, permission_calls, open_sockets. simpl. rewrite Hnone.
        destruct (platformOS o), (permission_passes o); reflexivity.
      * intros _. exact Hnone.
  - (* disconnect *)
    apply (teardown_keeps_single_channel w _ [] Hw).
    + intros e [].
    + unfold step, exec, handler, handleDisconnectPress.
      rewrite cleanup_spec. reflexivity.
  - (* unmount *)
    apply (teardown_keeps_single_channel w _ [] Hw).
    + intros e [].
    + unfold step, exec, handler. rewrite cleanup_spec. reflexivity.
  - (* socket error *)
    apply (teardown_keeps_single_channel w _ [] Hw).
    + intros e [].
    + unfold step, exec, handler, onSocketError.
      unfold bind at 1. unfold setError at 1, modify at 1.
      unfold bind at 1. unfold setStatus at 1, modify at 1.
      rewrite cleanup_spec. reflexivity.
  - (* datagram received *)
    exact Hw.
  - (* pipeline completed *)
    destruct rc as [| |logs]; [| |discriminate Hne];
      destruct w as [[st er so se] es nx];
      unfold step, exec, handler, onFFmpegComplete; unfold_state; unfold_async;
      destruct se as [cur|]; simpl; try exact Hw;
      destruct (Pos.eqb cur sid); exact Hw.
  - (* player ready *)
    destruct w as [[st er so se] es nx].
    destruct Hw as (H1 & H2 & H3).
    destruct st; simpl in *; repeat split; auto; discriminate.
  - (* player error *)
    destruct w as [[st er so se] es nx].
    destruct Hw as (H1 & H2 & H3).
    repeat split; auto; simpl; discriminate.
Qed.

Lemma single_channel_initial : single_channel initial.
Proof.
  repeat split; auto. apply at_most_one_open_nil.
Qed.

(** As long as no pipeline session fails, any sequence of events, each
    handled to completion before the next one is delivered, never has two
    command sockets open. *)
Lemma single_channel_run (es : list Event) :
  forallb (fun e => negb (is_pipeline_failure e)) es = true ->
  forall w, single_channel w -> single_channel (run es w).
Proof.
  induction es as [|e es IH]; intros Hes w Hw; simpl in *; [exact Hw|].
  apply andb_prop in Hes. destruct Hes as [He Hes].
  apply IH; [exact Hes|].
  apply single_channel_step; [|exact Hw].
  destruct (is_pipeline_failure e); [discriminate He|reflexivity].
Qed.

(** C7, on the code.  A connect request made while the status is
    [CONNECTING], [CONNECTED] or [STREAMING] starts no channel, but a
    retry after a pipeline failure does: the failure leaves the status at
    [ERROR] with the command socket open, the gate of [handleConnectPress]
    lets the next request through, and [initializeDrone] creates a second
    socket over the handle of the first, which is never closed.  Two
    sockets are then open at once. *)
Theorem retry_after_pipeline_failure_opens_second_socket :
  let failed :=
    run [ConnectPress (Scenario.allFine 1);
         FFmpegCompleted 1 (Failed "broken pipe")] initial in
  let retried := step failed (ConnectPress (Scenario.allFine 2)) in
  status (app failed) = ERROR /\
  commandSocket (app failed) = Some 0 /\
  open_sockets [] (effects failed) = [0] /\
  commandSocket (app retried) = Some 1 /\
  open_sockets [] (effects retried) = [0; 1] /\
  ~ In (SocketClose 0) (effects retried) /\
  ~ at_most_one_open (effects retried) /\
  (forall o w, accepts_connect (status (app w)) = false ->
               step w (ConnectPress o) = w).
Proof.
  cbv zeta. repeat split.
  - intro H. vm_compute in H. intuition discriminate.
  - intro H. specialize (H 30). vm_compute in H. lia.
  - intros o w. apply connect_ignored.
Qed.

(** ** The preflight, case by case *)

Import Preflight.

Lemma checkPermissions_fails (o : Outcomes) (w : World) :
  permission_passes o = false ->
  checkPermissions o w =
  (Normal false,
   mkWorld (mkApp ERROR (permission_message o) (commandSocket (app w))
                  (ffmpegSessionId (app w)))
           (effects w ++ [PermissionRequest]) (nextSocket w)).
Proof.
  destruct w as [[st er so se] es nx].
  unfold checkPermissions, permission_passes, permission_message.
  unfold_state. unfold_async. simpl.
  destruct (platformOS o); simpl; try discriminate.
  destruct (permissionRequest o) as [[| |]|m]; simpl;
    intro H; try discriminate H; reflexivity.
Qed.

Lemma checkNetwork_fails (o : Outcomes) (w : World) :
  network_passes o = false ->
  checkNetwork o w =
  (Normal false,
   mkWorld (mkApp ERROR (network_message o) (commandSocket (app w))
                  (ffmpegSessionId (app w)))
           (effects w ++ [NetInfoFetch]) (nextSocket w)).
Proof.
  destruct w as [[st er so se] es nx].
  unfold checkNetwork, network_passes, network_message.
  unfold_state. unfold_async. simpl.
  destruct (netInfoFetch o) as [[[[|]|] ty dt]|m]; simpl;
    try (intros _; reflexivity).
  destruct (String.eqb ty "wifi"); simpl; try (intros _; reflexivity).
  destruct (platformOS o); simpl; try discriminate.
  destruct dt as [[[n|]]|]; simpl; try discriminate.
  destruct (String.eqb n ""); simpl; try discriminate.
  destruct (startsWith n "TELLO-"); simpl; try discriminate.
  intros _. reflexivity.
Qed.

Lemma permission_fails_on_android (o : Outcomes) :
  permission_passes o = false -> permission_calls o = [PermissionRequest].
Proof.
  unfold permission_passes, permission_calls.
  destruct (platformOS o); try discriminate. reflexivity.
Qed.

(** A connect request that passes the gate and fails a check, in closed
    form. *)
Lemma connect_stops_before_handshake (o : Outcomes) (w : World) :
  accepts_connect (status (app w)) = true ->
  permission_passes o && network_passes o = false ->
  step w (ConnectPress o) =
  mkWorld (mkApp ERROR (preflight_message o) (commandSocket (app w))
                 (ffmpegSessionId (app w)))
          (effects w ++ preflight_calls o) (nextSocket w).
Proof.
  intros Ha Hf.
  unfold step, handler, handleConnectPress, preflight_message, preflight_calls.
  destruct w as [[st er so se] es nx]. simpl in Ha.
  assert (Hst : forall (k : M unit) (w0 : World),
             match st with
             | CONNECTING | CONNECTED | STREAMING => ret tt
             | _ => k
             end w0 = k w0)
    by (destruct st; try discriminate Ha; reflexivity).
  unfold exec at 1. unfold bind at 1. unfold gets at 1. simpl.
  rewrite Hst.
  unfold bind at 1. unfold setError at 1, modify at 1. simpl.
  unfold bind at 1. unfold setStatus at 1, modify at 1. simpl.
  unfold bind at 1.
  destruct (permission_passes o) eqn:Hp; simpl in Hf.
  - match goal with
    | |- context [checkPermissions o ?w0] =>
        destruct (checkPermissions_spec o w0) as [m1 E1]; rewrite E1
    end.
    rewrite Hp. simpl. unfold bind at 1.
    rewrite (checkNetwork_fails _ _ Hf). simpl.
    rewrite <- app_assoc. reflexivity.
  - rewrite (checkPermissions_fails _ _ Hp). simpl.
    rewrite (permission_fails_on_android _ Hp). reflexivity.
Qed.

Lemma preflight_message_nonempty (o : Outcomes) :
  permission_passes o && network_passes o = false ->
  preflight_message o <> "".
Proof.
  unfold preflight_message, permission_passes, network_passes,
    permission_message, network_message, wrongNetworkMessage.
  destruct (platformOS o); simpl;
    destruct (permissionRequest o) as [[| |]|pm]; simpl; try discriminate;
    destruct (netInfoFetch o) as [[[[|]|] ty dt]|m]; simpl; try discriminate;
    destruct (String.eqb ty "wifi"); simpl; try discriminate;
    destruct dt as [[[n|]]|]; simpl; try discriminate;
    destruct (String.eqb n ""); simpl; try discriminate.
Qed.

(** X1. A connect request whose location permission is not granted (the
    prompt is refused, or the request itself throws) stops at once: the
    prompt is the only call made, so the network is not queried and no
    socket is created; the status is [ERROR] with the message of the
    permission gate, and the two handles are left as they were.  The
    prompt is only ever shown on Android. *)
Theorem refused_permission_stops_connect (o : Outcomes) (w : World)
  (Haccepted : accepts_connect (status (app w)) = true)
  (Hrefused : permission_passes o = false) :
  let w' := step w (ConnectPress o) in
  platformOS o = android /\
  status (app w') = ERROR /\
  error (app w') =
    match permissionRequest o with
    | Thrown _ => "Error requesting location permission."
    | Normal _ => "Location permission denied. Cannot scan for WiFi."
    end /\
  effects w' = (effects w ++ [PermissionRequest])%list /\
  commandSocket (app w') = commandSocket (app w) /\
  ffmpegSessionId (app w') = ffmpegSessionId (app w) /\
  nextSocket w' = nextSocket w.
Proof.
  cbv zeta.
  rewrite connect_stops_before_handshake
    by (try assumption; rewrite Hrefused; reflexivity).
  unfold preflight_message, preflight_calls. rewrite Hrefused.
  rewrite (permission_fails_on_android _ Hrefused). simpl.
  repeat split.
  unfold permission_passes in Hrefused.
  destruct (platformOS o); try discriminate Hrefused. reflexivity.
Qed.

Lemma refused_permission_stops_connect_witness :
  let w' := step initial (ConnectPress Scenario.noLinkDenied) in
  status (app w') = ERROR /\
  error (app w') = "Location permission denied. Cannot scan for WiFi." /\
  effects w' = [PermissionRequest].
Proof.
  destruct (refused_permission_stops_connect Scenario.noLinkDenied initial
              eq_refl eq_refl) as (_ & H1 & H2 & H3 & _).
  cbv zeta. repeat split; assumption.
Defined.

(** X2. A connect request that passes the permission gate and fails the
    network preflight, for whatever reason (no link, not wifi, a foreign
    network name on Android, or a NetInfo query that throws), ends in
    [ERROR] with a non-empty message; the NetInfo query is the last call
    made, so no socket is created and nothing is sent, and the handles are
    left as they were.  When the query throws, the message is "Failed to
    check network status: " followed by the error's own message; when the
    link is not wifi, it is "Please connect to a WiFi network.". *)
Theorem failed_preflight_stops_connect (o : Outcomes) (w : World)
  (Haccepted : accepts_connect (status (app w)) = true)
  (Hpermitted : permission_passes o = true)
  (Hfails : network_passes o = false) :
  let w' := step w (ConnectPress o) in
  status (app w') = ERROR /\
  error (app w') <> "" /\
  effects w' = (effects w ++ permission_calls o ++ [NetInfoFetch])%list /\
  commandSocket (app w') = commandSocket (app w) /\
  ffmpegSessionId (app w') = ffmpegSessionId (app w) /\
  nextSocket w' = nextSocket w /\
  (forall m, netInfoFetch o = Thrown m ->
     error (app w') = "Failed to check network status: " ++ m) /\
  (forall state, netInfoFetch o = Normal state ->
     NetInfo.isConnected state = Some true ->
     String.eqb (NetInfo.type state) "wifi" = false ->
     error (app w') = "Please connect to a WiFi network.").
Proof.
  cbv zeta.
  assert (Hboth : permission_passes o && network_passes o = false)
    by (rewrite Hpermitted, Hfails; reflexivity).
  rewrite (connect_stops_before_handshake _ _ Haccepted Hboth).
  unfold preflight_calls. simpl. rewrite Hpermitted.
  repeat split.
  - apply preflight_message_nonempty. exact Hboth.
  - intros m Hm. unfold preflight_message, network_message.
    rewrite Hpermitted, Hm. reflexivity.
  - intros state Hs Hc Ht. unfold preflight_message, network_message.
    rewrite Hpermitted, Hs, Hc, Ht. reflexivity.
Qed.

Lemma failed_preflight_stops_connect_witness :
  let cell := step initial (ConnectPress Cases.onCellular) in
  let thrown := step initial (ConnectPress Cases.fetchThrows) in
  status (app cell) = ERROR /\
  error (app cell) = "Please connect to a WiFi network." /\
  status (app thrown) = ERROR /\
  error (app thrown) = "Failed to check network status: timeout" /\
  effects thrown = [PermissionRequest; NetInfoFetch].
Proof.
  destruct (failed_preflight_stops_connect Cases.onCellular initial
              eq_refl eq_refl eq_refl) as (C1 & _ & _ & _ & _ & _ & _ & C2).
  destruct (failed_preflight_stops_connect Cases.fetchThrows initial
              eq_refl eq_refl eq_refl) as (T1 & _ & T2 & _ & _ & _ & T3 & _).
  exact (conj C1 (conj (C2 Cases.cellular eq_refl eq_refl eq_refl)
           (conj T1 (conj (T3 "timeout" eq_refl) T2)))).
Defined.



Lemma checkNetwork_answer (o : Outcomes) (w : World) :
  fst (checkNetwork o w) = Normal (network_passes o).
Proof.
  destruct (checkNetwork_spec o w) as [m E]. rewrite E.
  destruct (network_passes o); reflexivity.
Qed.

(** X4. The network preflight accepts a connected wifi link in exactly
    these cases: the platform is not Android (the network name is then
    never looked at), or no name or an empty name is reported, or the
    reported name starts with "TELLO-", whatever follows the prefix.  It
    then answers [true], clears the error message and leaves the status
    and the handles alone. *)
Theorem tello_network_passes (o : Outcomes) (w : World)
  (Hwifi : on_wifi o = true)
  (Hname : platformOS o <> android \/
           truthy (reported_ssid o) = false \/
           exists suffix, reported_ssid o = Some ("TELLO-" ++ suffix)) :
  checkNetwork o w =
  (Normal true,
   mkWorld (mkApp (status (app w)) "" (commandSocket (app w))
                  (ffmpegSessionId (app w)))
           (effects w ++ [NetInfoFetch]) (nextSocket w)).
Proof.
  destruct (checkNetwork_spec o w) as [m E]. rewrite E.
  replace (network_passes o) with true; [reflexivity|].
  symmetry. revert Hwifi Hname.
  unfold on_wifi, network_passes, reported_ssid.
  destruct (netInfoFetch o) as [[[[|]|] ty dt]|e]; simpl; try discriminate.
  intros ->. simpl.
  destruct (platformOS o); try reflexivity.
  intros [H|[H|[suffix H]]]; [contradiction| |].
  - destruct dt as [[[n|]]|]; try reflexivity. simpl in *.
    rewrite H. reflexivity.
  - destruct dt as [[[n|]]|]; try discriminate H.
    injection H as ->. simpl. unfold startsWith. destruct suffix; reflexivity.
Qed.

Lemma tello_network_passes_witness :
  fst (checkNetwork (Scenario.allFine 1) initial) = Normal true /\
  fst (checkNetwork Cases.foreignWifiOnIos initial) = Normal true.
Proof.
  split.
  - rewrite (tello_network_passes (Scenario.allFine 1) initial eq_refl).
    + reflexivity.
    + right. right. exists "5A1B2C". reflexivity.
  - rewrite (tello_network_passes Cases.foreignWifiOnIos initial eq_refl).
    + reflexivity.
    + left. discriminate.
Defined.

Lemma flag_checkNetwork_answer (o : Outcomes) (w : FlagApp.World) :
  exists msg,
    FlagApp.checkNetwork o w =
    (Normal (network_passes o),
     FlagApp.mkWorld
       (FlagApp.mkApp (FlagApp.isConnected (FlagApp.app w))
                      (FlagApp.isStreaming (FlagApp.app w))
                      (if network_passes o then FlagApp.error (FlagApp.app w)
                       else msg)
                      (FlagApp.socket (FlagApp.app w))
                      (FlagApp.ffmpegSessionId (FlagApp.app w)))
       (FlagApp.effects w ++ [NetInfoFetch]) (FlagApp.nextSocket w)).
Proof.
  destruct w as [[ic isr er so se] es nx].
  unfold FlagApp.checkNetwork, network_passes.
  unfold exec, bind, try_catch, ret, throw, gets, modify, FlagApp.emit,
    FlagApp.setError.
  simpl.
  destruct (netInfoFetch o) as [[[[|]|] ty dt]|m]; simpl; try pick_msg.
  destruct (String.eqb ty "wifi"); simpl; try pick_msg.
  destruct (platformOS o); simpl; try pick_msg.
  destruct dt as [[[n|]]|]; simpl; try pick_msg.
  destruct (String.eqb n ""); simpl; try pick_msg.
  destruct (startsWith n "TELLO-"); simpl; pick_msg.
Qed.

Lemma network_message_nonempty (o : Outcomes) :
  network_passes o = false -> network_message o <> "".
Proof.
  unfold network_passes, network_message, wrongNetworkMessage.
  destruct (netInfoFetch o) as [[[[|]|] ty dt]|m]; simpl; try discriminate;
    destruct (String.eqb ty "wifi"); simpl; try discriminate;
    destruct (platformOS o); simpl; try discriminate;
    destruct dt as [[[n|]]|]; simpl; try discriminate.
Qed.

(** X5. The two variants of the component accept exactly the same
    networks: whatever NetInfo answers, [checkNetwork] of [App.jsx] and
    [checkNetwork] of the status-machine variant give the same answer, and
    neither of them ever rejects.  The variant of [App.jsx] changes nothing
    but the error message, and only when it answers [false]. *)
Theorem network_checks_agree (o : Outcomes) (w : World) (wf : FlagApp.World) :
  fst (FlagApp.checkNetwork o wf) = fst (checkNetwork o w) /\
  (exists answer, fst (checkNetwork o w) = Normal answer) /\
  (fst (checkNetwork o w) = Normal false <->
   status (app (exec (checkNetwork o) w)) = ERROR /\
   error (app (exec (checkNetwork o) w)) <> "") /\
  FlagApp.isConnected (FlagApp.app (exec (FlagApp.checkNetwork o) wf))
    = FlagApp.isConnected (FlagApp.app wf) /\
  FlagApp.socket (FlagApp.app (exec (FlagApp.checkNetwork o) wf))
    = FlagApp.socket (FlagApp.app wf) /\
  (fst (FlagApp.checkNetwork o wf) = Normal true ->
   FlagApp.error (FlagApp.app (exec (FlagApp.checkNetwork o) wf))
     = FlagApp.error (FlagApp.app wf)).
Proof.
  destruct (flag_checkNetwork_answer o wf) as [fm FE].
  unfold exec. rewrite FE, checkNetwork_answer. simpl.
  split; [reflexivity|]. split; [eexists; reflexivity|].
  split; [|split; [reflexivity|split; [reflexivity|]]].
  - split.
    + intros Hq. injection Hq as Hn.
      rewrite (checkNetwork_fails _ _ Hn). simpl.
      split; [reflexivity|]. apply network_message_nonempty. exact Hn.
    + intros [_ Hq]. destruct (network_passes o) eqn:Hn; [|reflexivity].
      exfalso. apply Hq. destruct (checkNetwork_spec o w) as [m E].
      rewrite E, Hn. reflexivity.
  - intros Hq. injection Hq as Hn. rewrite Hn. reflexivity.
Qed.

(** ** Sending, and events of the socket *)

Lemma teardown_event_spec (e : Event) (w : World) :
  is_teardown e = true ->
  step w e = torn_down (effects w ++ teardown_calls (app w)) (nextSocket w).
Proof.
  destruct w as [[st er so se] es nx].
  destruct e as [o|o|o|m o|m a p|sid rc| |err]; try discriminate; intros _;
    unfold step, exec, handler, handleDisconnectPress, onSocketError;
    [ | | unfold bind at 1; unfold setError at 1, modify at 1;
          unfold bind at 1; unfold setStatus at 1, modify at 1 ];
    rewrite cleanup_spec; reflexivity.
Qed.

(** X6. [sendCommand] sends nothing when the component holds no socket: it
    rejects with "Socket not initialized" and the state is untouched.  With
    a socket it makes exactly one call, sending the whole command text
    (offset 0, the [length] of the text in UTF-16 code units, which is not
    its number of bytes once the text leaves ASCII) to 192.168.10.1:8889,
    and it rejects
    exactly when the call-back of that send reports an error, with that
    error.  After a teardown (disconnect, unmount or socket error) the
    first case applies: a send rejects and nothing leaves. *)
Theorem sendCommand_needs_socket (o : Outcomes) (command : string) (w : World) :
  (commandSocket (app w) = None ->
   sendCommand o command w = (Thrown "Socket not initialized", w)) /\
  (forall s, commandSocket (app w) = Some s ->
     sendCommand o command w =
     (match sendResult o command with
      | Some m => Thrown m
      | None => Normal tt
      end,
      mkWorld (app w)
              (effects w ++
               [SocketSend s command 0 (js_length command) 8889 "192.168.10.1"])
              (nextSocket w))) /\
  (forall e, is_teardown e = true ->
     sendCommand o command (step w e)
     = (Thrown "Socket not initialized", step w e)) /\
  js_length "command" = 7 /\
  js_length (String (ascii_of_nat 195) (String (ascii_of_nat 169) EmptyString)) = 1.
Proof.
  split; [|split; [|split; [|split; reflexivity]]].
  - destruct w as [[st er so se] es nx]. simpl.
    unfold sendCommand, call, emit, bind, gets, modify, throw, ret. simpl.
    intros ->. reflexivity.
  - destruct w as [[st er so se] es nx]. simpl.
    unfold sendCommand, call, emit, bind, gets, modify, throw, ret. simpl.
    intros s ->. destruct (sendResult o command); reflexivity.
  - intros e He. rewrite (teardown_event_spec _ _ He). reflexivity.
Qed.

(** X7. An ['error'] event of the command socket is handled exactly like a
    disconnect request: from every state it leaves the same state and
    makes the same calls.  In particular the "UDP Socket error" message it
    records does not survive the handler. *)
Theorem socket_error_is_a_teardown (message : string) (o : Outcomes) (w : World) :
  step w (SocketError message o) = step w (DisconnectPress o) /\
  error (app (step w (SocketError message o))) = "" /\
  status (app (step w (SocketError message o))) = DISCONNECTED.
Proof.
  rewrite !teardown_event_spec by reflexivity. repeat split.
Qed.

(** ** How a connect request ends *)

Lemma connect_outcome_status (o : Outcomes) (w : World) :
  accepts_connect (status (app w)) = true ->
  status (app (step w (ConnectPress o))) =
  if permission_passes o && network_passes o then
    if handshake_succeeds o && launch_succeeds o then CONNECTED
    else DISCONNECTED
  else ERROR.
Proof.
  intros Ha.
  destruct (permission_passes o && network_passes o) eqn:Hb.
  - apply andb_prop in Hb. destruct Hb as [Hp Hn].
    rewrite (connect_initializes _ _ Ha Hp Hn).
    unfold initializeDrone_outcome, handshake_succeeds, launch_succeeds.
    destruct (createSocketThrows o); [reflexivity|].
    destruct (bindResult o), (sendResult o "command"),
      (sendResult o "streamon"), (executeAsyncResult o); reflexivity.
  - rewrite (connect_stops_before_handshake _ _ Ha Hb). reflexivity.
Qed.

(** X8. A connect request that passes the gate never leaves the component
    connecting: it ends in [CONNECTED] exactly when the permission gate,
    the network preflight, the handshake and the launch of the pipeline
    all succeed, in [ERROR] exactly when one of the two checks fails, and
    in [DISCONNECTED] in all other cases (a failure of the handshake or of
    the launch).  It never ends in [STREAMING]. *)
Theorem connect_request_outcome (o : Outcomes) (w : World)
  (Haccepted : accepts_connect (status (app w)) = true) :
  let st := status (app (step w (ConnectPress o))) in
  (st = CONNECTED <->
   permission_passes o = true /\ network_passes o = true /\
   handshake_succeeds o = true /\ launch_succeeds o = true) /\
  (st = ERROR <->
   permission_passes o = false \/ network_passes o = false) /\
  (st = DISCONNECTED <->
   permission_passes o = true /\ network_passes o = true /\
   (handshake_succeeds o = false \/ launch_succeeds o = false)) /\
  st <> CONNECTING /\ st <> STREAMING.
Proof.
  cbv zeta. rewrite (connect_outcome_status _ _ Haccepted).
  destruct (permission_passes o), (network_passes o),
    (handshake_succeeds o), (launch_succeeds o); simpl;
    repeat split; try discriminate; auto;
    try (intros (? & ? & ? & ?); discriminate);
    try (intros (? & ? & [?|?]); discriminate);
    try (intros [?|?]; discriminate).
Qed.

Lemma connect_request_outcome_witness :
  status (app (step initial (ConnectPress (Scenario.allFine 1)))) = CONNECTED /\
  status (app (step initial (ConnectPress Cases.launchFails))) = DISCONNECTED /\
  status (app (step initial (ConnectPress Cases.onCellular))) = ERROR.
Proof.
  destruct (connect_request_outcome (Scenario.allFine 1) initial eq_refl)
    as ((_ & A) & _).
  destruct (connect_request_outcome Cases.launchFails initial eq_refl)
    as (_ & _ & (_ & B) & _).
  destruct (connect_request_outcome Cases.onCellular initial eq_refl)
    as (_ & (_ & C) & _).
  refine (conj (A _) (conj (B _) (C _))).
  - repeat split.
  - split; [reflexivity|]. split; [reflexivity|]. right. reflexivity.
  - right. reflexivity.
Defined.

(** X9. When the handshake succeeds and the launch of the pipeline is
    rejected, both datagrams have already left; the attempt then cancels a
    session left over from before (if one is stored), closes the socket it
    has just created, and ends with status [DISCONNECTED], an empty
    message and both handles null: the "Failed to start FFmpeg" message
    does not survive the teardown. *)
Theorem failed_launch_tears_down (o : Outcomes) (w : World) (m : string)
  (Haccepted : accepts_connect (status (app w)) = true)
  (Hpermitted : permission_passes o = true)
  (Hnetwork : network_passes o = true)
  (Hhandshake : handshake_succeeds o = true)
  (Hlaunch : executeAsyncResult o = Thrown m) :
  let w' := step w (ConnectPress o) in
  app w' = mkApp DISCONNECTED "" None None /\
  effects w' =
    (effects w ++ permission_calls o ++ [NetInfoFetch] ++
     handshake_calls (nextSocket w) (Some 9000%N) ++
     [FFmpegExecute ffmpegCommand] ++
     match ffmpegSessionId (app w) with
     | Some id => [FFmpegCancel id]
     | None => []
     end ++ [SocketClose (nextSocket w)])%list /\
  nextSocket w' = S (nextSocket w).
Proof.
  cbv zeta. rewrite (connect_initializes _ _ Haccepted Hpermitted Hnetwork).
  unfold initializeDrone_outcome. rewrite Hhandshake, Hlaunch.
  unfold handshake_succeeds in Hhandshake.
  unfold attempt_calls, handshake_calls, preflight_done, torn_down.
  destruct (createSocketThrows o); [discriminate|].
  destruct (bindResult o); [discriminate|].
  destruct (sendResult o "command"); [discriminate|].
  destruct (sendResult o "streamon"); [discriminate|].
  simpl. rewrite <- !app_assoc. simpl. repeat split.
Qed.

Lemma failed_launch_tears_down_witness :
  let w' := step initial (ConnectPress Cases.launchFails) in
  app w' = mkApp DISCONNECTED "" None None /\
  nextSocket w' = 1.
Proof.
  destruct (failed_launch_tears_down Cases.launchFails initial
              "no such binary" eq_refl eq_refl eq_refl eq_refl eq_refl)
    as (H1 & _ & H3).
  exact (conj H1 H3).
Defined.

(** X10. The happy path.  When a connect request is accepted and the
    permission gate, the preflight, the handshake and the launch all
    succeed, the component is [CONNECTED] with an empty message, holding
    the freshly created socket and the session FFmpegKit has started, and
    the player is mounted but paused; the ready signal of the player then
    makes it [STREAMING], with the same handles and no further call, and
    the player plays. *)
Theorem happy_path (o : Outcomes) (w : World) (sid : SessionId)
  (Haccepted : accepts_connect (status (app w)) = true)
  (Hpermitted : permission_passes o = true)
  (Hnetwork : network_passes o = true)
  (Hhandshake : handshake_succeeds o = true)
  (Hlaunch : executeAsyncResult o = Normal sid) :
  let connected := step w (ConnectPress o) in
  let streaming := step connected VideoLoad in
  app connected = mkApp CONNECTED "" (Some (nextSocket w)) (Some sid) /\
  View.renderContent (status (app connected))
    = View.VideoPlayer "http://127.0.0.1:11112" true /\
  app streaming = mkApp STREAMING "" (Some (nextSocket w)) (Some sid) /\
  effects streaming = effects connected /\
  View.renderContent (status (app streaming))
    = View.VideoPlayer "http://127.0.0.1:11112" false /\
  run [ConnectPress o; VideoLoad] w = streaming.
Proof.
  cbv zeta.
  change (run [ConnectPress o; VideoLoad] w)
    with (step (step w (ConnectPress o)) VideoLoad).
  assert (E : step w (ConnectPress o) =
              mkWorld (mkApp CONNECTED "" (Some (nextSocket w)) (Some sid))
                      (effects (preflight_done o w)
                       ++ attempt_calls o (nextSocket w))
                      (S (nextSocket w))).
  { rewrite (connect_initializes _ _ Haccepted Hpermitted Hnetwork).
    unfold initializeDrone_outcome. rewrite Hhandshake, Hlaunch.
    unfold handshake_succeeds in Hhandshake.
    destruct (createSocketThrows o); [discriminate|]. reflexivity. }
  rewrite E. repeat split.
Qed.

Lemma happy_path_witness :
  app (run [ConnectPress (Scenario.allFine 1); VideoLoad] initial)
  = mkApp STREAMING "" (Some 0) (Some 1%positive).
Proof.
  destruct (happy_path (Scenario.allFine 1) initial 1%positive
              eq_refl eq_refl eq_refl eq_refl eq_refl)
    as (_ & _ & H3 & _ & _ & H6).
  rewrite H6. exact H3.
Defined.

(** ** Completions of the pipeline *)

(** X11. A pipeline session that ends successfully or cancelled never
    changes the status, the error message or the command socket, and makes
    no call; all it can do is clear its own identifier. *)
Theorem quiet_completion (sid : SessionId) (rc : TerminalOutcome) (w : World)
  (Hquiet : rc = Success \/ rc = Cancelled) :
  let w' := step w (FFmpegCompleted sid rc) in
  status (app w') = status (app w) /\
  error (app w') = error (app w) /\
  commandSocket (app w') = commandSocket (app w) /\
  effects w' = effects w /\
  nextSocket w' = nextSocket w /\
  (ffmpegSessionId (app w) = Some sid -> ffmpegSessionId (app w') = None) /\
  (ffmpegSessionId (app w) <> Some sid ->
   ffmpegSessionId (app w') = ffmpegSessionId (app w)).
Proof.
  cbv zeta. destruct w as [[st er so se] es nx].
  unfold step, exec, handler, onFFmpegComplete. unfold_state. unfold_async.
  destruct Hquiet; subst rc; simpl;
    (destruct se as [cur|]; simpl;
     [ destruct (Pos.eqb_spec cur sid); simpl; repeat split; auto;
       try (intro H; inversion H; contradiction);
       try (intro H; subst; contradiction)
     | repeat split; auto; discriminate ]).
Qed.

Lemma quiet_completion_witness :
  step Scenario.streaming (FFmpegCompleted 1 Cancelled) =
  mkWorld (mkApp STREAMING "" (Some 0) None) [] 1.
Proof.
  destruct (quiet_completion 1 Cancelled Scenario.streaming
              (or_intror eq_refl)) as (_ & _ & _ & _ & _ & H & _).
  specialize (H eq_refl). reflexivity.
Defined.

(** X12. After a teardown (a disconnect request, an unmount or a socket
    error), a completion that arrives late and reports success or
    cancellation changes nothing; one that reports a failure still moves
    the torn-down component to [ERROR] with the pipeline's message, both
    handles staying null and no call being made. *)
Theorem late_completion_after_teardown
  (e : Event) (sid : SessionId) (rc : TerminalOutcome) (w : World)
  (Hteardown : is_teardown e = true) :
  let t := step w e in
  let w' := step t (FFmpegCompleted sid rc) in
  (rc = Success \/ rc = Cancelled -> w' = t) /\
  (forall logs, rc = Failed logs ->
     app w' = mkApp ERROR "FFmpeg processing error. Check logs." None None /\
     effects w' = effects t /\ nextSocket w' = nextSocket t).
Proof.
  cbv zeta. rewrite (teardown_event_spec _ _ Hteardown).
  split.
  - intros [-> | ->]; reflexivity.
  - intros logs ->. repeat split.
Qed.

Lemma late_completion_after_teardown_witness :
  step Cases.tornDown (FFmpegCompleted 1 Cancelled) = Cases.tornDown /\
  status (app (step Cases.tornDown (FFmpegCompleted 1 (Failed "killed")))) = ERROR.
Proof.
  destruct (late_completion_after_teardown
              (DisconnectPress (Scenario.allFine 1)) 1 Cancelled
              Scenario.streaming eq_refl) as [A _].
  destruct (late_completion_after_teardown
              (DisconnectPress (Scenario.allFine 1)) 1 (Failed "killed")
              Scenario.streaming eq_refl) as [_ B].
  split.
  - apply A. right. reflexivity.
  - destruct (B "killed" eq_refl) as (H & _).
    change Cases.tornDown
      with (step Scenario.streaming (DisconnectPress (Scenario.allFine 1))).
    rewrite H. reflexivity.
Defined.

(** ** What every run keeps *)

Lemma connect_effects (o : Outcomes) (w : World) :
  effects (step w (ConnectPress o)) = (effects w ++ calls_of (ConnectPress o) w)%list.
Proof.
  unfold calls_of.
  destruct (accepts_connect (status (app w))) eqn:Ha;
    [|rewrite connect_ignored by exact Ha; rewrite app_nil_r; reflexivity].
  destruct (permission_passes o && network_passes o) eqn:Hb.
  - apply andb_prop in Hb. destruct Hb as [Hp Hn].
    rewrite (connect_initializes _ _ Ha Hp Hn).
    unfold initializeDrone_outcome, connect_calls, attempt_calls,
      handshake_succeeds, preflight_done, torn_down, teardown_calls.
    destruct (createSocketThrows o); simpl.
    + rewrite <- !app_assoc. reflexivity.
    + destruct (bindResult o), (sendResult o "command"),
        (sendResult o "streamon"), (executeAsyncResult o);
        simpl; rewrite <- ?app_assoc; simpl; rewrite ?app_nil_r; reflexivity.
  - rewrite (connect_stops_before_handshake _ _ Ha Hb). reflexivity.
Qed.

(** The calls of an event, whatever the event. *)
Lemma step_effects (e : Event) (w : World) :
  effects (step w e) = (effects w ++ calls_of e w)%list.
Proof.
  destruct e as [o|o|o|m o|m a p|sid rc| |err].
  - apply connect_effects.
  - rewrite teardown_event_spec by reflexivity. reflexivity.
  - rewrite teardown_event_spec by reflexivity. reflexivity.
  - rewrite teardown_event_spec by reflexivity. reflexivity.
  - simpl. rewrite app_nil_r. reflexivity.
  - simpl. rewrite app_nil_r. apply onFFmpegComplete_frame.
  - destruct w as [[st er so se] es nx]. simpl. rewrite app_nil_r.
    destruct st; reflexivity.
  - destruct w as [[st er so se] es nx]. simpl. rewrite app_nil_r.
    reflexivity.
Qed.

Lemma calls_are_expected (e : Event) (w : World) :
  forallb expected_call (calls_of e w) = true.
Proof.
  assert (Ht : forall a, forallb expected_call (teardown_calls a) = true)
    by (intros a; unfold teardown_calls;
        destruct (ffmpegSessionId a), (commandSocket a); reflexivity).
  destruct e as [o|o|o|m o|m a p|sid rc| |err]; simpl; auto.
  destruct (accepts_connect (status (app w))); [|reflexivity].
  destruct (permission_passes o && network_passes o).
  - destruct (createSocketThrows o) eqn:Hc.
    + rewrite forallb_app. simpl. rewrite Ht. unfold permission_calls.
      destruct (platformOS o); reflexivity.
    + unfold connect_calls, attempt_calls, permission_calls, handshake_succeeds.
      rewrite Hc.
      destruct (platformOS o), (bindResult o), (sendResult o "command"),
        (sendResult o "streamon"), (executeAsyncResult o),
        (ffmpegSessionId (app w)); reflexivity.
  - unfold preflight_calls, permission_calls.
    destruct (platformOS o), (permission_passes o); reflexivity.
Qed.

(** X13. Whatever the events and whatever the outside world answers, the
    status-machine variant only ever makes the calls it is written for:
    every datagram is "command" or "streamon", sent whole to
    192.168.10.1:8889; every bind is to local port 9000; every timer is the
    500 delay; every pipeline launch runs the one fixed command; and no
    alert is shown. *)
Theorem only_expected_calls (es : list Event) :
  forallb expected_call (effects (run es initial)) = true.
Proof.
  assert (G : forall l w, forallb expected_call (effects w) = true ->
                forallb expected_call (effects (run l w)) = true).
  { induction l as [|e l IH]; intros w Hw; simpl; [exact Hw|].
    apply IH. rewrite step_effects, forallb_app, Hw, calls_are_expected.
    reflexivity. }
  apply G. reflexivity.
Qed.

(** X14. Scope: runs in which every event is handled to completion before
    the next one is delivered (no event arrives while a connect attempt or
    a teardown is suspended at an [await]).  In such a run from the
    initial state, as long as no pipeline session reports a failure, at
    most one command socket is open at every moment; the socket that is
    open is the one the component holds the handle of, and a disconnect
    request leaves no socket open. *)
Theorem one_channel_without_pipeline_failure (es : list Event)
  (Hquiet : forallb (fun e => negb (is_pipeline_failure e)) es = true) :
  let w := run es initial in
  at_most_one_open (effects w) /\
  open_sockets [] (effects w) = held (app w) /\
  (forall o, open_sockets [] (effects (step w (DisconnectPress o))) = []).
Proof.
  cbv zeta.
  pose proof (single_channel_run es Hquiet initial single_channel_initial)
    as Hw.
  split; [apply Hw|]. split; [apply Hw|].
  intros o.
  pose proof (single_channel_step (DisconnectPress o) _ eq_refl Hw)
    as (Hd & _).
  rewrite Hd. rewrite teardown_event_spec by reflexivity. reflexivity.
Qed.

Lemma one_channel_without_pipeline_failure_witness :
  let es := [ConnectPress (Scenario.allFine 1); VideoLoad;
             DisconnectPress (Scenario.allFine 1);
             ConnectPress (Scenario.allFine 2)] in
  at_most_one_open (effects (run es initial)) /\
  open_sockets [] (effects (run es initial)) = [1].
Proof.
  destruct (one_channel_without_pipeline_failure
              [ConnectPress (Scenario.allFine 1); VideoLoad;
               DisconnectPress (Scenario.allFine 1);
               ConnectPress (Scenario.allFine 2)] eq_refl) as (H1 & H2 & _).
  exact (conj H1 H2).
Defined.

Lemma coherent_step (e : Event) (w : World) :
  coherent (app w) -> coherent (app (step w e)).
Proof.
  intros Hw.
  assert (Hclean : coherent (mkApp DISCONNECTED "" None None))
    by (split; [discriminate|auto]).
  destruct e as [o|o|o|m o|m a p|sid rc| |err].
  - destruct (accepts_connect (status (app w))) eqn:Ha;
      [|rewrite connect_ignored by exact Ha; exact Hw].
    destruct (permission_passes o && network_passes o) eqn:Hb.
    + apply andb_prop in Hb. destruct Hb as [Hp Hn].
      rewrite (connect_initializes _ _ Ha Hp Hn).
      unfold initializeDrone_outcome, torn_down.
      destruct (createSocketThrows o); [exact Hclean|].
      destruct (handshake_succeeds o), (executeAsyncResult o);
        try exact Hclean.
      split; discriminate.
    + rewrite (connect_stops_before_handshake _ _ Ha Hb). split; simpl.
      * intros _. apply preflight_message_nonempty. exact Hb.
      * discriminate.
  - rewrite teardown_event_spec by reflexivity. exact Hclean.
  - rewrite teardown_event_spec by reflexivity. exact Hclean.
  - rewrite teardown_event_spec by reflexivity. exact Hclean.
  - exact Hw.
  - destruct rc as [| |logs].
    + destruct w as [[st er so se] es nx]. destruct Hw as [H1 H2].
      unfold step, exec, handler, onFFmpegComplete. unfold_state. unfold_async.
      destruct se as [cur|]; simpl in *;
        [destruct (Pos.eqb cur sid); simpl|]; split; auto;
        intros Hd; destruct (H2 Hd) as (A & B & C); auto; discriminate.
    + destruct w as [[st er so se] es nx]. destruct Hw as [H1 H2].
      unfold step, exec, handler, onFFmpegComplete. unfold_state. unfold_async.
      destruct se as [cur|]; simpl in *;
        [destruct (Pos.eqb cur sid); simpl|]; split; auto;
        intros Hd; destruct (H2 Hd) as (A & B & C); auto; discriminate.
    + rewrite onFFmpegComplete_failed. split; simpl; discriminate.
  - destruct w as [[st er so se] es nx]. destruct Hw as [H1 H2].
    destruct st; simpl in *; split; simpl; try discriminate; auto.
  - destruct w as [[st er so se] es nx]. split; simpl; discriminate.
Qed.

Lemma coherent_run_from (es : list Event) :
  forall w, coherent (app w) -> coherent (app (run es w)).
Proof.
  induction es as [|e es IH]; intros w Hw; simpl; [exact Hw|].
  apply IH, coherent_step, Hw.
Qed.

(** X15. Scope: runs in which every event is handled to completion before
    the next one is delivered (no event arrives while a connect attempt or
    a teardown is suspended at an [await]).  In every state such a run
    reaches from the initial state, whatever the events and the answers of
    the outside world: an [ERROR] status comes with a non-empty message,
    and a [DISCONNECTED] status comes with an empty message and both
    handles null. *)
Theorem reachable_states_are_coherent (es : list Event) :
  let a := app (run es initial) in
  (status a = ERROR -> error a <> "") /\
  (status a = DISCONNECTED ->
   error a = "" /\ commandSocket a = None /\ ffmpegSessionId a = None).
Proof.
  cbv zeta. apply (coherent_run_from es initial).
  split; [discriminate|]. intros _. repeat split.
Qed.

(** ** The screen *)

Lemma disabled_is_not_accepted (st : ConnectionStatus) :
  View.isConnectButtonDisabled st = negb (accepts_connect st).
Proof. destruct st; reflexivity. Qed.

Lemma accepted_connect_makes_a_call (o : Outcomes) (w : World) :
  accepts_connect (status (app w)) = true ->
  length (effects w) < length (effects (step w (ConnectPress o))).
Proof.
  intros Ha. rewrite connect_effects, length_app.
  unfold calls_of. rewrite Ha.
  assert (0 < length (calls_of (ConnectPress o) w)); [|unfold calls_of in *;
    rewrite Ha in *; lia].
  unfold calls_of. rewrite Ha.
  destruct (permission_passes o && network_passes o) eqn:Hb.
  - destruct (createSocketThrows o); unfold connect_calls; 
      rewrite !length_app; simpl; lia.
  - unfold preflight_calls. rewrite length_app.
    destruct (permission_passes o) eqn:Hp; simpl; [lia|].
    rewrite (permission_fails_on_android _ Hp). simpl. lia.
Qed.

(** X16. The Connect button is disabled in exactly the states in which
    [handleConnectPress] ignores a press: when the button is disabled a
    press changes nothing, whatever the outside world would answer; when it
    is enabled (and then it reads "Connect to Drone") every press makes at
    least one call. *)
Theorem connect_button_matches_gate (w : World) :
  (View.isConnectButtonDisabled (status (app w)) = true ->
   forall o, step w (ConnectPress o) = w) /\
  (View.isConnectButtonDisabled (status (app w)) = false ->
   View.getButtonText (status (app w)) = "Connect to Drone" /\
   forall o, length (effects w) < length (effects (step w (ConnectPress o)))) /\
  (View.getButtonText (status (app w)) = "Connect to Drone" ->
   View.isConnectButtonDisabled (status (app w)) = false).
Proof.
  rewrite disabled_is_not_accepted. repeat split.
  - intros H o. apply connect_ignored.
    destruct (accepts_connect (status (app w))); [discriminate H|reflexivity].
  - destruct (status (app w)); try discriminate; reflexivity.
  - intros o. apply accepted_connect_makes_a_call.
    destruct (accepts_connect (status (app w))); [reflexivity|discriminate H].
  - destruct (status (app w)); try discriminate; reflexivity.
Qed.

(** X17. The Disconnect button and the video player are on screen in
    exactly the states in which the Connect button is disabled
    ([CONNECTING], [CONNECTED], [STREAMING]), and the player is paused
    unless the status is [STREAMING].  So once a pipeline failure has moved
    the component to [ERROR], the screen offers Connect and no Disconnect,
    while the command socket the component held is still held. *)
Theorem disconnect_offered_only_while_active
  (st : ConnectionStatus) (sid : SessionId) (logs : string) (w : World) :
  View.disconnectButtonShown st = View.isConnectButtonDisabled st /\
  View.playerMounted st = View.isConnectButtonDisabled st /\
  (View.renderContent st = View.VideoPlayer "http://127.0.0.1:11112" false
   <-> st = STREAMING) /\
  let failed := step w (FFmpegCompleted sid (Failed logs)) in
  View.disconnectShown (View.render (app failed)) = false /\
  View.connectDisabled (View.render (app failed)) = false /\
  View.content (View.render (app failed)) = View.Placeholder "Error State" /\
  commandSocket (app failed) = commandSocket (app w).
Proof.
  split; [destruct st; reflexivity|].
  split; [destruct st; reflexivity|].
  split; [destruct st; split; try discriminate; reflexivity|].
  cbv zeta. rewrite onFFmpegComplete_failed. repeat split.
Qed.

(** X18. The screen shows either the error banner or the status line,
    never both: the banner, with the message, exactly when the error
    message is not empty, and otherwise the line "Status: " followed by the
    name of the status.  Whenever the status is [ERROR] the placeholder
    reads "Error State", Connect is enabled and reads "Connect to Drone",
    and Disconnect is not offered; an [ERROR] status whose message is empty
    shows no banner, only the line "Status: ERROR". *)
Theorem banner_or_status_line (a : App) :
  (View.errorBanner (View.render a) = None <-> error a = "") /\
  (View.statusLine (View.render a) = None <-> error a <> "") /\
  (forall text, View.errorBanner (View.render a) = Some text -> text = error a) /\
  (error a = "" ->
   View.statusLine (View.render a)
     = Some ("Status: " ++ View.statusName (status a))) /\
  (status a = ERROR ->
   View.content (View.render a) = View.Placeholder "Error State" /\
   View.connectText (View.render a) = "Connect to Drone" /\
   View.connectDisabled (View.render a) = false /\
   View.disconnectShown (View.render a) = false) /\
  (status a = ERROR -> error a = "" ->
   View.errorBanner (View.render a) = None /\
   View.statusLine (View.render a) = Some "Status: ERROR").
Proof.
  destruct a as [st er so se]. unfold View.render. simpl.
  destruct (String.eqb_spec er "") as [E|N]; simpl.
  - split; [split; auto|].
    split; [split; [discriminate|intro; contradiction]|].
    split; [discriminate|].
    split; [reflexivity|].
    split; intros ->; repeat split.
  - split; [split; [discriminate|intro; contradiction]|].
    split; [split; auto|].
    split; [intros text H; injection H as <-; reflexivity|].
    split; [intro; contradiction|].
    split; [intros ->; repeat split|intros _ H; contradiction].
Qed.

(** ** The variant of [App.jsx] *)

Ltac unfold_flag :=
  unfold exec, bind, try_catch, ret, throw, gets, modify, FlagApp.call,
    FlagApp.emit, FlagApp.setIsConnected, FlagApp.setIsStreaming,
    FlagApp.setError, FlagApp.setSocket, FlagApp.setFfmpegSessionId in *.

Lemma flag_idle_step (e : FlagEvents.Event) (w : FlagApp.World) :
  FlagEvents.idle w -> FlagEvents.idle (FlagEvents.step w e).
Proof.
  destruct w as [[ic isr er so se] es nx].
  intros (H1 & H2 & H3 & H4 & H5). simpl in *. subst.
  destruct e as [o|o| | |rc]; unfold FlagEvents.idle, FlagEvents.step; simpl.
  - repeat split; assumption.
  - unfold FlagApp.cleanup. unfold_flag. simpl. repeat split; assumption.
  - repeat split; assumption.
  - repeat split; try reflexivity. rewrite forallb_app, H5. reflexivity.
  - destruct rc; simpl; repeat split; assumption.
Qed.

(** X19. In [App.jsx] the Connect button does nothing: [handleConnect]
    calls a [checkPermissions] that the file never declares, so it rejects
    and leaves the state exactly as it was.  Hence no sequence of presses,
    player signals, pipeline completions and unmounts ever connects the
    component: from the initial state it stays not connected and not
    streaming, holds no socket and no session, and the only calls it ever
    makes are alerts. *)
Theorem flag_never_connects (es : list FlagEvents.Event) (o : Outcomes)
  (w : FlagApp.World) :
  FlagApp.handleConnect o w = (Thrown "checkPermissions is not defined", w) /\
  let final := FlagEvents.run es FlagApp.initial in
  FlagApp.isConnected (FlagApp.app final) = false /\
  FlagApp.isStreaming (FlagApp.app final) = false /\
  FlagApp.socket (FlagApp.app final) = None /\
  FlagApp.ffmpegSessionId (FlagApp.app final) = None /\
  forallb FlagEvents.is_alert (FlagApp.effects final) = true.
Proof.
  split; [reflexivity|]. cbv zeta.
  assert (G : forall l v, FlagEvents.idle v ->
                FlagEvents.idle (FlagEvents.run l v)).
  { induction l as [|e l IH]; intros v Hv; simpl; [exact Hv|].
    apply IH, flag_idle_step, Hv. }
  apply (G es FlagApp.initial). repeat split.
Qed.

Lemma flag_cleanup_spec (o : Outcomes) (w : FlagApp.World) :
  cancelThrows o = None -> closeThrows o = None ->
  FlagApp.cleanup o w =
  (Normal tt,
   FlagApp.mkWorld
     (FlagApp.mkApp false false (FlagApp.error (FlagApp.app w)) None None)
     (FlagApp.effects w ++
      match FlagApp.ffmpegSessionId (FlagApp.app w) with
      | Some id => [FFmpegCancel id] | None => [] end ++
      match FlagApp.socket (FlagApp.app w) with
      | Some s => [SocketClose s] | None => [] end)
     (FlagApp.nextSocket w)).
Proof.
  intros Hc Hs. destruct w as [[ic isr er so se] es nx].
  unfold FlagApp.cleanup. unfold_flag. rewrite Hc, Hs. simpl.
  destruct se, so; simpl; rewrite <- ?app_assoc, ?app_nil_r; reflexivity.
Qed.

(** X20. The teardown of [App.jsx], when neither cancel nor close throws:
    it cancels a stored session, closes a held socket, nulls both handles
    and resets both flags, but keeps the error message; run again it makes
    no call and changes nothing.  When [FFmpegKit.cancel] rejects on a
    stored session, the teardown rejects with it and stops there: the
    socket is not closed, and the handles and the flags are left as they
    were. *)
Theorem flag_cleanup_behaviour (o : Outcomes) (w : FlagApp.World) :
  (cancelThrows o = None -> closeThrows o = None ->
   let w' := exec (FlagApp.cleanup o) w in
   FlagApp.app w' =
     FlagApp.mkApp false false (FlagApp.error (FlagApp.app w)) None None /\
   (forall id, FlagApp.ffmpegSessionId (FlagApp.app w) = Some id ->
      In (FFmpegCancel id) (FlagApp.effects w')) /\
   (forall s, FlagApp.socket (FlagApp.app w) = Some s ->
      In (SocketClose s) (FlagApp.effects w')) /\
   exec (FlagApp.cleanup o) w' = w') /\
  (forall m id, cancelThrows o = Some m ->
   FlagApp.ffmpegSessionId (FlagApp.app w) = Some id ->
   FlagApp.cleanup o w =
   (Thrown m,
    FlagApp.mkWorld (FlagApp.app w) (FlagApp.effects w ++ [FFmpegCancel id])
                    (FlagApp.nextSocket w))).
Proof.
  split.
  - intros Hc Hs. cbv zeta. unfold exec.
    rewrite !(flag_cleanup_spec _ _ Hc Hs). simpl. rewrite !app_nil_r.
    repeat split.
    + intros id ->. rewrite !in_app_iff. simpl. auto.
    + intros s ->. rewrite !in_app_iff. simpl. auto.
  - intros m id Hc Hi. destruct w as [[ic isr er so se] es nx].
    simpl in Hi. subst se.
    unfold FlagApp.cleanup. unfold_flag. rewrite Hc. reflexivity.
Qed.

Lemma flag_cleanup_behaviour_witness :
  FlagApp.app (exec (FlagApp.cleanup (Scenario.allFine 1)) Cases.flagStreaming)
    = FlagApp.mkApp false false "" None None /\
  FlagApp.app (exec (FlagApp.cleanup Cases.cancelRejects) Cases.flagStreaming)
    = FlagApp.app Cases.flagStreaming.
Proof.
  destruct (flag_cleanup_behaviour (Scenario.allFine 1) Cases.flagStreaming)
    as [A _].
  destruct (flag_cleanup_behaviour Cases.cancelRejects Cases.flagStreaming)
    as [_ B].
  destruct (A eq_refl eq_refl) as (A1 & _).
  split; [exact A1|].
  unfold exec.
  rewrite (B "session not found" 1%positive eq_refl eq_refl). reflexivity.
Defined.



(** X22. In [App.jsx] a launch of the pipeline that is rejected after a
    successful handshake tears nothing down: an alert is shown, but the
    component stays connected with its socket open and its error message
    empty, it is not streaming, and no session is stored. *)
Theorem flag_failed_launch_stays_connected
  (o : Outcomes) (w : FlagApp.World) (m : string)
  (Hhandshake : handshake_succeeds o = true)
  (Hlaunch : executeAsyncResult o = Thrown m) :
  let w' := exec (FlagApp.initializeDrone o) w in
  FlagApp.app w' =
    FlagApp.mkApp true false "" (Some (FlagApp.nextSocket w))
                  (FlagApp.ffmpegSessionId (FlagApp.app w)) /\
  FlagApp.effects w' =
    (FlagApp.effects w ++ handshake_calls (FlagApp.nextSocket w) None ++
     [FFmpegExecute FlagApp.ffmpegCommand;
      AlertShown "Error" "Failed to start video stream"])%list.
Proof.
  cbv zeta. destruct w as [[ic isr er so se] es nx].
  revert Hhandshake. unfold handshake_succeeds, handshake_calls.
  unfold FlagApp.initializeDrone, FlagApp.startFFmpeg, FlagApp.bindSocket,
    FlagApp.forEach, FlagApp.sendAndWait, FlagApp.createSocket.
  unfold_flag. rewrite Hlaunch. simpl.
  destruct (createSocketThrows o); [discriminate|].
  destruct (bindResult o); [discriminate|].
  destruct (sendResult o "command"); [discriminate|].
  destruct (sendResult o "streamon"); [discriminate|].
  intros _. simpl. rewrite <- !app_assoc. split; reflexivity.
Qed.

Lemma flag_failed_launch_stays_connected_witness :
  FlagApp.app (exec (FlagApp.initializeDrone Cases.launchFails) FlagApp.initial)
  = FlagApp.mkApp true false "" (Some 0) None.
Proof.
  destruct (flag_failed_launch_stays_connected Cases.launchFails
              FlagApp.initial "no such binary" eq_refl eq_refl) as [H _].
  exact H.
Defined.

(** X23. The completion callback of [App.jsx] tells success from
    everything else only: a session that ends cancelled is reported like
    one that failed.  So after a teardown that cancelled the running
    session, the callback of that session writes "FFmpeg process failed.
    Check logs for details." into the torn-down component; it changes
    nothing else. *)
Theorem flag_cancel_is_reported_as_failure
  (o : Outcomes) (w : FlagApp.World)
  (Hcancel : cancelThrows o = None) (Hclose : closeThrows o = None) :
  let t := exec (FlagApp.cleanup o) w in
  let w' := exec (FlagApp.onFFmpegComplete Cancelled) t in
  FlagApp.app w' =
    FlagApp.mkApp false false "FFmpeg process failed. Check logs for details."
                  None None /\
  FlagApp.effects w' = FlagApp.effects t /\
  exec (FlagApp.onFFmpegComplete Cancelled) w
    = exec (FlagApp.onFFmpegComplete (Failed "")) w /\
  exec (FlagApp.onFFmpegComplete Success) w = w.
Proof.
  cbv zeta. unfold exec. rewrite (flag_cleanup_spec _ _ Hcancel Hclose).
  repeat split.
Qed.

Lemma flag_cancel_is_reported_as_failure_witness :
  FlagApp.error
    (FlagApp.app
       (exec (FlagApp.onFFmpegComplete Cancelled)
             (exec (FlagApp.cleanup (Scenario.allFine 1)) Cases.flagStreaming)))
  = "FFmpeg process failed. Check logs for details.".
Proof.
  destruct (flag_cancel_is_reported_as_failure (Scenario.allFine 1)
              Cases.flagStreaming eq_refl eq_refl) as [H _].
  rewrite H. reflexivity.
Defined.

(** ** From connected to streaming, in both variants *)

Lemma flag_idle_run (es : list FlagEvents.Event) :
  forall v, FlagEvents.idle v -> FlagEvents.idle (FlagEvents.run es v).
Proof.
  induction es as [|e es IH]; intros v Hv; simpl; [exact Hv|].
  apply IH, flag_idle_step, Hv.
Qed.

Lemma flag_initial_idle : FlagEvents.idle FlagApp.initial.
Proof. repeat split. Qed.

(** C3. The ready signal of the player is the only event that turns
    [CONNECTED] into [STREAMING].  In the status-machine variant, from
    every connected state: the ready signal does make the status
    [STREAMING]; every other event (a connect or disconnect request, an
    unmount, a socket error or datagram, a completion of the pipeline with
    any outcome, a playback error) leaves a status other than [STREAMING];
    and the launch of the pipeline itself leaves the status [CONNECTED]
    when it is accepted and never makes it [STREAMING].  In [App.jsx] the
    launch followed by its delay is never reached, because the connect
    handler rejects first: no sequence of events makes that component
    stream. *)
Theorem only_ready_advances_to_streaming
  (e : Event) (o : Outcomes) (w : World) (es : list FlagEvents.Event)
  (Hconnected : status (app w) = CONNECTED) :
  status (app (step w VideoLoad)) = STREAMING /\
  (e <> VideoLoad -> status (app (step w e)) <> STREAMING) /\
  status (app (exec (startFFmpeg o) w)) <> STREAMING /\
  (forall sid, executeAsyncResult o = Normal sid ->
     status (app (exec (startFFmpeg o) w)) = CONNECTED) /\
  FlagApp.isStreaming (FlagApp.app (FlagEvents.run es FlagApp.initial)) = false.
Proof.
  split; [|split; [|split; [|split]]].
  - destruct w as [[st er so se] evs nx]. simpl in Hconnected. subst st.
    reflexivity.
  - intros Hother Hs. apply Hother.
    exact (only_ready_starts_streaming e w Hconnected Hs).
  - destruct (launch_keeps_status o w) as [H|H]; rewrite H;
      [rewrite Hconnected|]; discriminate.
  - intros sid Hsid. destruct w as [[st er so se] evs nx].
    simpl in Hconnected. subst st.
    unfold startFFmpeg, exec, try_catch, bind, emit, modify, throw,
      setFfmpegSessionId.
    rewrite Hsid. reflexivity.
  - apply (flag_idle_run es FlagApp.initial flag_initial_idle).
Qed.

Lemma only_ready_advances_to_streaming_witness :
  status (app (step Scenario.connected VideoLoad)) = STREAMING /\
  status (app (step Scenario.connected (FFmpegCompleted 1 Success))) <> STREAMING /\
  status (app (exec (startFFmpeg (Scenario.allFine 2)) Scenario.connected))
    = CONNECTED.
Proof.
  destruct (only_ready_advances_to_streaming (FFmpegCompleted 1 Success)
              (Scenario.allFine 2) Scenario.connected [] eq_refl)
    as (H1 & H2 & _ & H4 & _).
  refine (conj H1 (conj (H2 _) (H4 2%positive eq_refl))).
  discriminate.
Defined.
